(** * python_cypher: the query-execution engine of [python_cypher.py]

    A shallow embedding of [CypherParserBaseClass], its NetworkX adapter
    [CypherToNetworkx] and [extract_atomic_facts], followed by the
    properties of the engine.

    Python values are a small inductive type, dictionaries keep their
    iteration order as association lists, exceptions are explicit in a
    [result] type, and every in-place mutation of the query AST is
    threaded as state: a function that mutates its argument returns the
    mutated object next to its result. *)

From Stdlib Require Import ZArith Lia.
From stdpp Require Import base option list gmap strings pretty sorting.

#[local] Set Warnings "-register-all".

Local Open Scope string_scope.
Local Open Scope list_scope.

(** ** Python values *)

(** The values the engine meets in attribute structures: [None], integers,
    strings and dictionaries with string keys (in iteration order). *)
Inductive pyval : Type :=
| VNone
| VInt (z : Z)
| VStr (s : string)
| VDict (items : list (string * pyval)).

Abbreviation dict := (list (string * pyval)).

(** Exceptions raised by the modelled code. [NonExistentAttribute] is the
    [Exception("Asked for non-existent attribute {} in node {}.")] of
    [_node_attribute_value]; its two fields are the two format arguments. *)
Inductive exn : Type :=
| KeyError (key : option string)
| TypeError
| AttributeError
| IndexError
| NonExistentAttribute (attribute : string) (node : pyval)
| UnhandledQuery
| UnhandledExtract (class_name : string)
| NetworkXError.

Inductive result (A : Type) : Type :=
| Ok (a : A)
| Raise (e : exn).
Arguments Ok {A} a.
Arguments Raise {A} e.

Definition rbind {A B} (r : result A) (k : A -> result B) : result B :=
  match r with
  | Ok a => k a
  | Raise e => Raise e
  end.

Notation "'let!' x ':=' r 'in' k" := (rbind r (fun x => k))
  (at level 10, x pattern, r at level 100, k at level 200).

(** [d.get(k)] on the items of a dictionary: the first (and, in a Python
    dict, only) binding of [k]. *)
Fixpoint dict_lookup (items : dict) (k : string) : option pyval :=
  match items with
  | [] => None
  | (k', v) :: rest => if String.eqb k' k then Some v else dict_lookup rest k
  end.

(** [d[k] = v]: replace the binding in place, or add it at the end. *)
Fixpoint dict_set (items : dict) (k : string) (v : pyval) : dict :=
  match items with
  | [] => [(k, v)]
  | (k', v') :: rest =>
      if String.eqb k' k then (k', v) :: rest else (k', v') :: dict_set rest k v
  end.

(** [d.update(other)] *)
Definition dict_update (items other : dict) : dict :=
  fold_left (fun acc kv => dict_set acc (fst kv) (snd kv)) other items.

(** [value[key]] with a string key: [KeyError] on a dictionary that lacks
    the key, [TypeError] on [None], an integer or a string. *)
Definition py_getitem (value : pyval) (key : string) : result pyval :=
  match value with
  | VDict items =>
      match dict_lookup items key with
      | Some v => Ok v
      | None => Raise (KeyError (Some key))
      end
  | _ => Raise TypeError
  end.

(** [value.get(key, None)]: [AttributeError] on anything but a dictionary
    ([None], integers and strings have no [get]). *)
Definition py_get (value : pyval) (key : string) : result pyval :=
  match value with
  | VDict items =>
      match dict_lookup items key with
      | Some v => Ok v
      | None => Ok VNone
      end
  | _ => Raise AttributeError
  end.

(** A class name or an edge label of the AST: a string or [None]. *)
Definition label_val (l : option string) : pyval :=
  match l with
  | Some s => VStr s
  | None => VNone
  end.

(** [v == l] for a label [l] (a string or [None]). *)
Definition label_eqb (v : pyval) (l : option string) : bool :=
  match v, l with
  | VNone, None => true
  | VStr s, Some t => String.eqb s t
  | _, _ => false
  end.

(** Modelled from the spec: the literal of an equality constraint. The
    grammar that builds [Constraint] objects (module [cypher_parser]) is
    not part of the sources; the spec calls the right-hand side a literal
    value and distinguishes it from the absent sentinel, so a literal is a
    string or an integer. *)
Inductive literal : Type :=
| LitStr (s : string)
| LitInt (z : Z).

(** [value == literal] *)
Definition literal_eqb (v : pyval) (l : literal) : bool :=
  match v, l with
  | VStr s, LitStr t => String.eqb s t
  | VInt a, LitInt b => Z.eqb a b
  | _, _ => false
  end.

(** ** The NetworkX adapter [CypherToNetworkx] *)

(** A [networkx.MultiDiGraph] as the adapter reads it: [node] maps a node
    name to its attribute dictionary (in the dictionary's iteration
    order), [edge] maps a pair (source, target) to the key dictionary of
    the parallel edges between them. *)
Record MultiDiGraph : Type := {
  node : list (string * dict);
  edge : list ((string * string) * list (Z * dict))
}.

Fixpoint assoc {A} (l : list (string * A)) (k : string) : option A :=
  match l with
  | [] => None
  | (k', v) :: rest => if String.eqb k' k then Some v else assoc rest k
  end.

Definition pair_eqb (p q : string * string) : bool :=
  String.eqb (fst p) (fst q) && String.eqb (snd p) (snd q).

Fixpoint assoc_pair {A} (l : list ((string * string) * A)) (k : string * string)
  : option A :=
  match l with
  | [] => None
  | (k', v) :: rest => if pair_eqb k' k then Some v else assoc_pair rest k
  end.

Module CypherToNetworkx.

Definition _get_domain (obj : MultiDiGraph) : list string :=
  map fst (node obj).

Definition _get_node (graph_object : MultiDiGraph) (node_name : string)
  : result pyval :=
  match assoc (node graph_object) node_name with
  | Some attrs => Ok (VDict attrs)
  | None => Raise (KeyError (Some node_name))
  end.

(** The loop of [_node_attribute_value] over [attribute_list]; [node0] is
    the node the error message names. The bare [except] turns whatever
    [out.get] raises into the attribute error. *)
Fixpoint _node_attribute_value_loop (node0 out : pyval)
    (attribute_list : list string) : result pyval :=
  match attribute_list with
  | [] => Ok out
  | attribute :: rest =>
      match py_get out attribute with
      | Ok out' => _node_attribute_value_loop node0 out' rest
      | Raise _ => Raise (NonExistentAttribute attribute node0)
      end
  end.

Definition _node_attribute_value (node0 : pyval) (attribute_list : list string)
  : result pyval :=
  _node_attribute_value_loop node0 node0 attribute_list.

(** [KeyError] and [TypeError] are caught and give [None]; anything else
    would propagate. *)
Fixpoint _attribute_value_from_node_keypath (value : pyval)
    (keypath : list string) : result pyval :=
  match keypath with
  | [] => Ok value
  | key :: rest =>
      match py_getitem value key with
      | Ok value' => _attribute_value_from_node_keypath value' rest
      | Raise (KeyError _) => Ok VNone
      | Raise TypeError => Ok VNone
      | Raise e => Raise e
      end
  end.

(** The generator swallows every exception: a pair of nodes without an
    entry in [edge] yields nothing. *)
Definition _edges_connecting_nodes (graph_object : MultiDiGraph)
    (source target : string) : list (Z * pyval) :=
  match assoc_pair (edge graph_object) (source, target) with
  | Some keydict => map (fun kd => (fst kd, VDict (snd kd))) keydict
  | None => []
  end.

Definition _node_class (node0 : pyval) : result pyval :=
  py_get node0 "class".

Definition _edge_class (edge0 : pyval) : pyval :=
  match py_get edge0 "class" with
  | Ok out => out
  | Raise AttributeError => VNone
  | Raise _ => VNone
  end.

End CypherToNetworkx.

(** ** The query AST and the atomic facts

    The classes of module [cypher_parser] are not part of the sources; the
    records below carry the attributes the engine reads and writes. An
    attribute the engine tests with [hasattr], or reads without having set
    it, is an [option] whose [None] is the missing attribute. *)

Inductive clause : Type :=
| Or (left_disjunct right_disjunct : clause)
| Not (argument : clause)
| Constraint (keypath : list string) (value : literal).

Inductive atomic_fact : Type :=
| ClassIs (designation : option string) (class_name : option string)
| EdgeExists (node_1 node_2 : string) (edge_label : option string)
| NodeHasDocument (designation : option string) (document : option dict)
| WhereClause (constraint : clause).

Record Node : Type := {
  designation : option string;
  node_class : option string;
  attribute_conditions : option dict;
  connecting_edges : list atomic_fact;
  next_anonymous_variable : option Z
}.

Record Literals : Type := { literal_list : list Node }.

Record MatchQuery : Type := {
  literals : option Literals;
  mq_where_clause : option clause
}.

(** A return item is a [str], or a list that starts with a designation. *)
Inductive return_item : Type :=
| ReturnName (name : string)
| ReturnPath (path : list string).

Record ReturnVariables : Type := { variable_list : list return_item }.

Record MatchWhereReturnQuery : Type := {
  match_clause : option MatchQuery;
  where_clause : option clause;
  return_variables : ReturnVariables
}.

Record CreateClause : Type := { cc_literals : option Literals }.

Record CreateReturnQuery : Type := {
  create_clause : option CreateClause;
  cr_return_variables : ReturnVariables
}.

Inductive parsed_query : Type :=
| PMatch (q : MatchWhereReturnQuery)
| PCreate (q : CreateReturnQuery)
| POther (class_name : string).

(** ** [extract_atomic_facts] *)

(** The two attributes of the function object [_recurse]. *)
Record recurse_state : Type := {
  _recurse_atomic_facts : list atomic_fact;
  _recurse_next_anonymous_variable : Z
}.

Definition append_facts (st : recurse_state) (facts : list atomic_fact)
  : recurse_state :=
  {| _recurse_atomic_facts := _recurse_atomic_facts st ++ facts;
     _recurse_next_anonymous_variable := _recurse_next_anonymous_variable st |}.

Definition set_designation (n : Node) (d : string) : Node :=
  {| designation := Some d;
     node_class := node_class n;
     attribute_conditions := attribute_conditions n;
     connecting_edges := connecting_edges n;
     next_anonymous_variable := next_anonymous_variable n |}.

Definition set_next_anonymous_variable (n : Node) (z : Z) : Node :=
  {| designation := designation n;
     node_class := node_class n;
     attribute_conditions := attribute_conditions n;
     connecting_edges := connecting_edges n;
     next_anonymous_variable := Some z |}.

(** The facts appended for a node once it has its designation. *)
Definition node_facts (n : Node) : list atomic_fact :=
  [ClassIs (designation n) (node_class n)]
  ++ connecting_edges n
  ++ match attribute_conditions n with
     | Some conditions =>
         [NodeHasDocument (designation n)
            (if (0 <? length conditions)%nat then Some conditions else None)]
     | None => []
     end.

(** The branch [isinstance(subquery, Node)]. The generated name reads the
    counter of [_recurse]; the increment that follows is applied to the
    attribute [next_anonymous_variable] of the node itself, and reading
    that attribute fails when the node has none. *)
Definition _recurse_Node (st : recurse_state) (subquery : Node)
  : Node * recurse_state * result unit :=
  match designation subquery with
  | None =>
      let named :=
        set_designation subquery
          ("_v" +:+ pretty (_recurse_next_anonymous_variable st)) in
      match next_anonymous_variable named with
      | None => (named, st, Raise AttributeError)
      | Some z =>
          let bumped := set_next_anonymous_variable named (z + 1) in
          (bumped, append_facts st (node_facts bumped), Ok tt)
      end
  | Some _ => (subquery, append_facts st (node_facts subquery), Ok tt)
  end.

(** [for literal in subquery.literal_list: _recurse(literal)] *)
Fixpoint _recurse_literal_list (st : recurse_state) (l : list Node)
  : list Node * recurse_state * result unit :=
  match l with
  | [] => ([], st, Ok tt)
  | literal :: rest =>
      match _recurse_Node st literal with
      | (literal', st', Ok _) =>
          match _recurse_literal_list st' rest with
          | (rest', st'', r) => (literal' :: rest', st'', r)
          end
      | (literal', st', Raise e) => (literal' :: rest, st', Raise e)
      end
  end.

Definition _recurse_Literals (st : recurse_state) (subquery : option Literals)
  : option Literals * recurse_state * result unit :=
  match subquery with
  | None => (None, st, Ok tt)
  | Some ls =>
      match _recurse_literal_list st (literal_list ls) with
      | (l', st', r) => (Some {| literal_list := l' |}, st', r)
      end
  end.

Definition _recurse_WhereClause (st : recurse_state) (subquery : option clause)
  : recurse_state :=
  match subquery with
  | None => st
  | Some c => append_facts st [WhereClause c]
  end.

Definition _recurse_MatchQuery (st : recurse_state) (subquery : option MatchQuery)
  : option MatchQuery * recurse_state * result unit :=
  match subquery with
  | None => (None, st, Ok tt)
  | Some mq =>
      match _recurse_Literals st (literals mq) with
      | (ls', st', Ok _) =>
          (Some {| literals := ls'; mq_where_clause := mq_where_clause mq |},
           _recurse_WhereClause st' (mq_where_clause mq), Ok tt)
      | (ls', st', Raise e) =>
          (Some {| literals := ls'; mq_where_clause := mq_where_clause mq |},
           st', Raise e)
      end
  end.

Definition _recurse_MatchWhereReturnQuery (st : recurse_state)
    (subquery : MatchWhereReturnQuery)
  : MatchWhereReturnQuery * recurse_state * result unit :=
  match _recurse_MatchQuery st (match_clause subquery) with
  | (mc', st', Ok _) =>
      ({| match_clause := mc'; where_clause := where_clause subquery;
          return_variables := return_variables subquery |},
       _recurse_WhereClause st' (where_clause subquery), Ok tt)
  | (mc', st', Raise e) =>
      ({| match_clause := mc'; where_clause := where_clause subquery;
          return_variables := return_variables subquery |}, st', Raise e)
  end.

Definition _recurse_CreateClause (st : recurse_state) (subquery : option CreateClause)
  : option CreateClause * recurse_state * result unit :=
  match subquery with
  | None => (None, st, Ok tt)
  | Some cc =>
      match _recurse_Literals st (cc_literals cc) with
      | (ls', st', r) => (Some {| cc_literals := ls' |}, st', r)
      end
  end.

Definition _recurse_CreateReturnQuery (st : recurse_state)
    (subquery : CreateReturnQuery)
  : CreateReturnQuery * recurse_state * result unit :=
  match _recurse_CreateClause st (create_clause subquery) with
  | (cc', st', r) =>
      ({| create_clause := cc';
          cr_return_variables := cr_return_variables subquery |}, st', r)
  end.

Definition _recurse_init : recurse_state :=
  {| _recurse_atomic_facts := []; _recurse_next_anonymous_variable := 0 |}.

Definition finish_extract {Q} (out : Q * recurse_state * result unit)
  : Q * result (list atomic_fact) :=
  match out with
  | (q', st, Ok _) => (q', Ok (_recurse_atomic_facts st))
  | (q', _, Raise e) => (q', Raise e)
  end.

(** [extract_atomic_facts] on a [MatchWhereReturnQuery] and on a
    [CreateReturnQuery]: the facts, next to the AST as the call leaves it. *)
Definition extract_atomic_facts_match (query : MatchWhereReturnQuery)
  : MatchWhereReturnQuery * result (list atomic_fact) :=
  finish_extract (_recurse_MatchWhereReturnQuery _recurse_init query).

Definition extract_atomic_facts_create (query : CreateReturnQuery)
  : CreateReturnQuery * result (list atomic_fact) :=
  finish_extract (_recurse_CreateReturnQuery _recurse_init query).

Definition extract_atomic_facts (query : parsed_query)
  : parsed_query * result (list atomic_fact) :=
  match query with
  | PMatch q =>
      let (q', r) := extract_atomic_facts_match q in (PMatch q', r)
  | PCreate q =>
      let (q', r) := extract_atomic_facts_create q in (PCreate q', r)
  | POther class_name => (query, Raise (UnhandledExtract class_name))
  end.

(** ** [matching_nodes] *)

(** What a consumer that drains a generator observes: the rows yielded,
    and the exception that ended the iteration, if any. *)
Record trace : Type := {
  rows : list (list pyval);
  error : option exn
}.

Definition str_le (a b : string) : Prop := String.leb a b = true.

#[global] Instance str_le_dec (a b : string) : Decision (str_le a b).
Proof. unfold str_le. apply _. Defined.

(** [hasattr(fact, 'designation') and fact.designation is not None] *)
Definition fact_designation (fact : atomic_fact) : option string :=
  match fact with
  | ClassIs d _ => d
  | NodeHasDocument d _ => d
  | EdgeExists _ _ _ => None
  | WhereClause _ => None
  end.

(** [sorted(list(all_designations))] for the set of the designations of
    the facts. *)
Definition all_designations_of (atomic_facts : list atomic_fact) : list string :=
  merge_sort str_le
    (elements (list_to_set (omap fact_designation atomic_facts) : gset string)).

(** [itertools.product] of [k] copies of [domain]: the first position
    varies slowest. *)
Fixpoint product (domain : list string) (k : nat) : list (list string) :=
  match k with
  | O => [[]]
  | S k' => flat_map (fun x => map (cons x) (product domain k')) domain
  end.

(** The dictionary comprehension that builds [var_to_element]. *)
Definition make_var_to_element (all_designations domain_assignment : list string)
  : gmap string string :=
  list_to_map (zip all_designations domain_assignment).

Section Matching.

Import CypherToNetworkx.

Variable graph_object : MultiDiGraph.

(** [var_to_element[d]] *)
Definition var_lookup (var_to_element : gmap string string) (d : option string)
  : result string :=
  match d with
  | Some s =>
      match var_to_element !! s with
      | Some element => Ok element
      | None => Raise (KeyError (Some s))
      end
  | None => Raise (KeyError None)
  end.

Definition _eval_constraint (var_to_element : gmap string string)
    (keypath : list string) (value : literal) : result bool :=
  match keypath with
  | [] => Raise IndexError
  | k0 :: rest =>
      let! element := var_lookup var_to_element (Some k0) in
      let! node0 := _get_node graph_object element in
      let! found := _attribute_value_from_node_keypath node0 rest in
      Ok (literal_eqb found value)
  end.

(** [or] evaluates its right operand only when the left one is false. *)
Fixpoint _eval_boolean (var_to_element : gmap string string) (c : clause)
  : result bool :=
  match c with
  | Or l r =>
      let! bl := _eval_boolean var_to_element l in
      if bl then Ok true else _eval_boolean var_to_element r
  | Not a =>
      let! b := _eval_boolean var_to_element a in Ok (negb b)
  | Constraint keypath value => _eval_constraint var_to_element keypath value
  end.

(** One turn of [for atomic_fact in atomic_facts]: the new value of
    [sentinal]. A fact that is none of [ClassIs], [EdgeExists] and
    [WhereClause] falls through the [if]/[elif] chain. *)
Definition check_fact (var_to_element : gmap string string) (sentinal : bool)
    (fact : atomic_fact) : result bool :=
  match fact with
  | ClassIs d desired_class =>
      let! element := var_lookup var_to_element d in
      let! node0 := _get_node graph_object element in
      let! var_class := _node_class node0 in
      Ok (if bool_decide (desired_class <> None)
             && negb (label_eqb var_class desired_class)
          then false else sentinal)
  | EdgeExists node_1 node_2 edge_label =>
      let! source := var_lookup var_to_element (Some node_1) in
      let! target := var_lookup var_to_element (Some node_2) in
      Ok (if negb (existsb
                     (fun e => label_eqb (_edge_class (snd e)) edge_label)
                     (_edges_connecting_nodes graph_object source target))
          then false else sentinal)
  | WhereClause c =>
      let! b := _eval_boolean var_to_element c in
      Ok (sentinal && b)
  | NodeHasDocument _ _ => Ok sentinal
  end.

Fixpoint check_facts (var_to_element : gmap string string) (sentinal : bool)
    (atomic_facts : list atomic_fact) : result bool :=
  match atomic_facts with
  | [] => Ok sentinal
  | fact :: rest =>
      let! sentinal' := check_fact var_to_element sentinal fact in
      check_facts var_to_element sentinal' rest
  end.

(** [for return_path in variables_to_return]: the return list as the
    loop leaves it, and the row or the exception. A [str] item appends
    the bound node and leaves the loop; a list item loses its head to
    [pop(0)] before anything else is evaluated. *)
Fixpoint project (var_to_element : gmap string string)
    (variables_to_return : list return_item) (return_list : list pyval)
  : list return_item * result (list pyval) :=
  match variables_to_return with
  | [] => ([], Ok return_list)
  | ReturnName name :: rest =>
      (ReturnName name :: rest,
       let! element := var_lookup var_to_element (Some name) in
       Ok (return_list ++ [VStr element]))
  | ReturnPath [] :: rest => (ReturnPath [] :: rest, Raise IndexError)
  | ReturnPath (d :: return_path) :: rest =>
      match (let! element := var_lookup var_to_element (Some d) in
             let! node0 := _get_node graph_object element in
             _node_attribute_value node0 return_path) with
      | Ok v =>
          let (rest', r) := project var_to_element rest (return_list ++ [v]) in
          (ReturnPath return_path :: rest', r)
      | Raise e => (ReturnPath return_path :: rest, Raise e)
      end
  end.

(** The body of [for domain_assignment in itertools.product(...)] for
    one assignment: the return list afterwards, and [Ok (Some row)] for a
    yielded row, [Ok None] for a rejected assignment. *)
Definition try_assignment (all_designations : list string)
    (atomic_facts : list atomic_fact) (variable_list0 : list return_item)
    (domain_assignment : list string)
  : list return_item * result (option (list pyval)) :=
  let var_to_element := make_var_to_element all_designations domain_assignment in
  match check_facts var_to_element true atomic_facts with
  | Raise e => (variable_list0, Raise e)
  | Ok false => (variable_list0, Ok None)
  | Ok true =>
      match project var_to_element variable_list0 [] with
      | (variable_list', Ok return_list) => (variable_list', Ok (Some return_list))
      | (variable_list', Raise e) => (variable_list', Raise e)
      end
  end.

Fixpoint enumerate (all_designations : list string)
    (atomic_facts : list atomic_fact) (variable_list0 : list return_item)
    (assignments : list (list string)) : list return_item * trace :=
  match assignments with
  | [] => (variable_list0, {| rows := []; error := None |})
  | domain_assignment :: rest =>
      match try_assignment all_designations atomic_facts variable_list0
              domain_assignment with
      | (variable_list', Raise e) =>
          (variable_list', {| rows := []; error := Some e |})
      | (variable_list', Ok None) =>
          enumerate all_designations atomic_facts variable_list' rest
      | (variable_list', Ok (Some row)) =>
          let (variable_list'', t) :=
            enumerate all_designations atomic_facts variable_list' rest in
          (variable_list'', {| rows := row :: rows t; error := error t |})
      end
  end.

Definition set_variable_list (q : MatchWhereReturnQuery)
    (l : list return_item) : MatchWhereReturnQuery :=
  {| match_clause := match_clause q; where_clause := where_clause q;
     return_variables := {| variable_list := l |} |}.

(** [matching_nodes], drained: the AST as the call leaves it, and what
    the generator produced. *)
Definition matching_nodes (parsed_query0 : MatchWhereReturnQuery)
  : MatchWhereReturnQuery * trace :=
  match extract_atomic_facts_match parsed_query0 with
  | (q', Raise e) => (q', {| rows := []; error := Some e |})
  | (q', Ok atomic_facts) =>
      let all_designations := all_designations_of atomic_facts in
      let domain := _get_domain graph_object in
      let (variable_list', t) :=
        enumerate all_designations atomic_facts
          (variable_list (return_variables q'))
          (product domain (length all_designations)) in
      (set_variable_list q' variable_list', t)
  end.

End Matching.

(** ** Creation: [unique_id], [_create_node], [_create_edge], [create_query] *)

(** The graph together with what the run does not decide by itself: the
    source of randomness behind [random_hash] ([random_hash w i] is the
    digest of the [i]-th draw), and the hashing of dictionary keys. The
    program runs under Python 2, where a dictionary is iterated in the
    order of its hash table and not in the order of insertion:
    [key_rank w keys k] is the place that the key [k] takes in the
    iteration of a dictionary once a key has been inserted, where [keys]
    lists the keys as they were iterated before, with the new key last. *)
Record world : Type := {
  graph : MultiDiGraph;
  random_hash : nat -> string;
  drawn : nat;
  key_rank : list string -> string -> nat
}.

Definition set_graph (w : world) (g : MultiDiGraph) : world :=
  {| graph := g; random_hash := random_hash w; drawn := drawn w;
     key_rank := key_rank w |}.

Definition unique_id (w : world) : string * world :=
  ("_id_" +:+ random_hash w (drawn w),
   {| graph := graph w; random_hash := random_hash w; drawn := S (drawn w);
      key_rank := key_rank w |}).

Fixpoint insert_by_rank {A} (rank : string -> nat) (x : string * A)
    (l : list (string * A)) : list (string * A) :=
  match l with
  | [] => [x]
  | y :: l' =>
      if (rank (fst x) <=? rank (fst y))%nat then x :: y :: l'
      else y :: insert_by_rank rank x l'
  end.

(** The entries of a dictionary that has just received a new key, in the
    order in which the dictionary is iterated from then on: the entries
    sorted by the place the hashing gives to their keys. Nothing is
    assumed of that order; it need not keep the old entries in their old
    order, nor put the new entry last. *)
Definition dict_iteration {A} (rank : list string -> string -> nat)
    (entries : list (string * A)) : list (string * A) :=
  foldr (insert_by_rank (rank (map fst entries))) [] entries.

(** [MultiDiGraph.add_node(n, attr_dict)] once the attribute dictionary is
    set up: a new node enters the dictionary of the nodes, an old one has
    its attributes updated in place. *)
Definition add_node (rank : list string -> string -> nat) (g : MultiDiGraph)
    (n : string) (attr : dict) : MultiDiGraph :=
  match assoc (node g) n with
  | None => {| node := dict_iteration rank (node g ++ [(n, attr)]);
               edge := edge g |}
  | Some old =>
      {| node := map (fun kv => if String.eqb (fst kv) n
                                then (fst kv, dict_update old attr) else kv)
                     (node g);
         edge := edge g |}
  end.

Definition key_in (keydict : list (Z * dict)) (key : Z) : bool :=
  existsb (fun kd => Z.eqb (fst kd) key) keydict.

(** [key = len(keydict)], then [while key in keydict: key += 1]; the loop
    ends within [len(keydict)] turns. *)
Fixpoint fresh_key (keydict : list (Z * dict)) (key : Z) (turns : nat) : Z :=
  match turns with
  | O => key
  | S turns' =>
      if key_in keydict key then fresh_key keydict (key + 1) turns' else key
  end.

Fixpoint put_edge (edges : list ((string * string) * list (Z * dict)))
    (uv : string * string) (attr : dict)
  : list ((string * string) * list (Z * dict)) :=
  match edges with
  | [] => [(uv, [(0%Z, attr)])]
  | (uv', keydict) :: rest =>
      if pair_eqb uv' uv
      then (uv', keydict ++
                   [(fresh_key keydict (Z.of_nat (length keydict)) (length keydict),
                     attr)]) :: rest
      else (uv', keydict) :: put_edge rest uv attr
  end.

(** [MultiDiGraph.add_edge(u, v, **attr)] without an explicit key. *)
Definition add_edge (rank : list string -> string -> nat) (g : MultiDiGraph)
    (u v : string) (attr : dict) : MultiDiGraph :=
  let g1 := match assoc (node g) u with
            | None => {| node := dict_iteration rank (node g ++ [(u, [])]);
                         edge := edge g |}
            | Some _ => g
            end in
  let g2 := match assoc (node g1) v with
            | None => {| node := dict_iteration rank (node g1 ++ [(v, [])]);
                         edge := edge g1 |}
            | Some _ => g1
            end in
  {| node := node g2; edge := put_edge (edge g2) (u, v) attr |}.

Definition has_key (items : dict) (k : string) : bool :=
  match dict_lookup items k with
  | Some _ => true
  | None => false
  end.

(** [del d[k]] for a key that may be absent. *)
Fixpoint dict_remove (items : dict) (k : string) : dict :=
  match items with
  | [] => []
  | (k', v) :: rest =>
      if String.eqb k' k then dict_remove rest k
      else (k', v) :: dict_remove rest k
  end.

(** The call [graph_object.add_node(new_id, **kwargs)] up to the point
    where the attribute dictionary is set up. A keyword named [self] or
    [n] collides with a parameter of [add_node] and the call raises
    [TypeError]. A keyword named [attr_dict] is taken for the parameter of
    that name: [None] counts as absent, a dictionary is updated with the
    other keywords and becomes the attribute dictionary, and any other
    value has no [update], which [add_node] reports as an error of its
    own. *)
Definition add_node_attr_dict (kwargs : dict) : result dict :=
  if has_key kwargs "self" || has_key kwargs "n" then Raise TypeError
  else
    let attr := dict_remove kwargs "attr_dict" in
    match dict_lookup kwargs "attr_dict" with
    | None => Ok attr
    | Some VNone => Ok attr
    | Some (VDict d) => Ok (dict_update d attr)
    | Some _ => Raise NetworkXError
    end.

Module Create.

(** A condition named like a parameter of [_create_node] collides with the
    positional argument at the call
    [self._create_node(graph_object, node_class, **conditions)]. *)
Definition collides_with_create_node (conditions : dict) : bool :=
  has_key conditions "self" || has_key conditions "graph_object"
  || has_key conditions "node_class".

(** The conditions of the literal as the call leaves them: the keywords
    are copies, but a dictionary passed under the name [attr_dict] is the
    object held by the literal, and [add_node] updates it in place. *)
Definition conditions_after (conditions : dict) (stored : result dict) : dict :=
  match dict_lookup conditions "attr_dict", stored with
  | Some (VDict _), Ok merged => dict_set conditions "attr_dict" (VDict merged)
  | _, _ => conditions
  end.

(** [_create_node]: the world and the conditions of the literal
    afterwards, and the new identifier or the exception. The identifier is
    drawn before [add_node] is called, so a call that fails in [add_node]
    has used a draw. *)
Definition _create_node (w : world) (node_class0 : option string)
    (attribute_conditions0 : dict) : world * dict * result string :=
  if collides_with_create_node attribute_conditions0
  then (w, attribute_conditions0, Raise TypeError)
  else
    let (new_id, w1) := unique_id w in
    let kwargs :=
      dict_set attribute_conditions0 "class" (label_val node_class0) in
    let stored := add_node_attr_dict kwargs in
    (match stored with
     | Ok attrs =>
         set_graph w1 (add_node (key_rank w1) (graph w1) new_id attrs)
     | Raise _ => w1
     end,
     conditions_after attribute_conditions0 stored,
     match stored with
     | Ok _ => Ok new_id
     | Raise e => Raise e
     end).

(** The attribute dictionary [_create_edge] stores on the new edge. *)
Definition created_edge_data (edge_label : option string) (new_edge_id : string)
  : dict :=
  [("edge_label", label_val edge_label); ("_id", VStr new_edge_id)].

Definition _create_edge (w : world) (source_node target_node : string)
    (edge_label : option string) : string * world :=
  let (new_edge_id, w1) := unique_id w in
  (new_edge_id,
   set_graph w1 (add_edge (key_rank w1) (graph w1) source_node target_node
                   (created_edge_data edge_label new_edge_id))).

(** The local variables of [create_query]. *)
Record locals : Type := {
  designation_to_node : gmap (option string) string;
  designation_to_edge : gmap string string
}.

Definition set_node (l : locals) (d : option string) (id : string) : locals :=
  {| designation_to_node := <[d := id]> (designation_to_node l);
     designation_to_edge := designation_to_edge l |}.

Definition set_edge (l : locals) (k id : string) : locals :=
  {| designation_to_node := designation_to_node l;
     designation_to_edge := <[k := id]> (designation_to_edge l) |}.

Definition set_conditions (n : Node) (conditions : dict) : Node :=
  {| designation := designation n;
     node_class := node_class n;
     attribute_conditions := Some conditions;
     connecting_edges := connecting_edges n;
     next_anonymous_variable := next_anonymous_variable n |}.

(** First loop: one [_create_node] per literal. The literals come back as
    the loop leaves them. *)
Fixpoint create_nodes (w : world) (l : locals) (literal_list0 : list Node)
  : world * locals * list Node * result unit :=
  match literal_list0 with
  | [] => (w, l, [], Ok tt)
  | lit :: rest =>
      match attribute_conditions lit with
      | None => (w, l, lit :: rest, Raise AttributeError)
      | Some conditions =>
          match _create_node w (node_class lit) conditions with
          | (w', conditions', Ok new_id) =>
              match create_nodes w' (set_node l (designation lit) new_id) rest
              with
              | (w'', l'', rest', r) =>
                  (w'', l'', set_conditions lit conditions' :: rest', r)
              end
          | (w', conditions', Raise e) =>
              (w', l, set_conditions lit conditions' :: rest, Raise e)
          end
      end
  end.

Definition is_EdgeExists (fact : atomic_fact) : bool :=
  match fact with
  | EdgeExists _ _ _ => true
  | _ => false
  end.

(** Second loop: one [_create_edge] per [EdgeExists] fact. *)
Fixpoint create_edges (w : world) (l : locals) (edge_facts : list atomic_fact)
  : world * locals * result unit :=
  match edge_facts with
  | [] => (w, l, Ok tt)
  | EdgeExists node_1 node_2 edge_label :: rest =>
      match designation_to_node l !! Some node_1 with
      | None => (w, l, Raise (KeyError (Some node_1)))
      | Some source_node =>
          match designation_to_node l !! Some node_2 with
          | None => (w, l, Raise (KeyError (Some node_2)))
          | Some target_node =>
              let (new_edge_id, w') :=
                _create_edge w source_node target_node edge_label in
              create_edges w' (set_edge l "placeholder" new_edge_id) rest
          end
      end
  | _ :: rest => create_edges w l rest
  end.

(** [parsed_query.create_clause.literals.literal_list] *)
Definition create_literal_list (q : CreateReturnQuery) : result (list Node) :=
  match create_clause q with
  | None => Raise AttributeError
  | Some cc =>
      match cc_literals cc with
      | None => Raise AttributeError
      | Some ls => Ok (literal_list ls)
      end
  end.

Definition set_literal_list (q : CreateReturnQuery) (l : list Node)
  : CreateReturnQuery :=
  {| create_clause := Some {| cc_literals := Some {| literal_list := l |} |};
     cr_return_variables := cr_return_variables q |}.

(** The body of [create_query], with the locals it ends with. *)
Definition create_query_body (w : world) (parsed_query0 : CreateReturnQuery)
  : world * CreateReturnQuery * locals * result unit :=
  let l0 := {| designation_to_node := ∅; designation_to_edge := ∅ |} in
  match extract_atomic_facts_create parsed_query0 with
  | (q', Raise e) => (w, q', l0, Raise e)
  | (q', Ok atomic_facts) =>
      match create_literal_list q' with
      | Raise e => (w, q', l0, Raise e)
      | Ok literal_list0 =>
          match create_nodes w l0 literal_list0 with
          | (w1, l1, literal_list1, Raise e) =>
              (w1, set_literal_list q' literal_list1, l1, Raise e)
          | (w1, l1, literal_list1, Ok _) =>
              match create_edges w1 l1 (filter is_EdgeExists atomic_facts) with
              | (w2, l2, r) => (w2, set_literal_list q' literal_list1, l2, r)
              end
          end
      end
  end.

(** [create_query] has no [return] statement: the caller gets the
    mutated graph and AST and the value [None], here [tt]. *)
Definition create_query (w : world) (parsed_query0 : CreateReturnQuery)
  : world * CreateReturnQuery * result unit :=
  match create_query_body w parsed_query0 with
  | (w', q', _, r) => (w', q', r)
  end.

End Create.

(** ** [query]

    The generator [query] after [self.parse(query_string)], drained: the
    world and the AST as the call leaves them, and the rows it yields. *)
Definition query (w : world) (parsed_query0 : parsed_query)
  : world * parsed_query * trace :=
  match parsed_query0 with
  | PMatch q =>
      let (q', t) := matching_nodes (graph w) q in (w, PMatch q', t)
  | PCreate q =>
      match Create.create_query w q with
      | (w', q', Ok _) => (w', PCreate q', {| rows := []; error := None |})
      | (w', q', Raise e) => (w', PCreate q', {| rows := []; error := Some e |})
      end
  | POther _ =>
      (w, parsed_query0, {| rows := []; error := Some UnhandledQuery |})
  end.

(** * Sample data and auxiliary notions *)

Import CypherToNetworkx.

(** Two nodes: [a] with a class and a name, [b] with a name only; one edge
    from [a] to [b] whose attribute dictionary has the class [KNOWS]. *)
Definition sample_graph : MultiDiGraph :=
  {| node := [("a", [("class", VStr "Person"); ("name", VStr "Ann")]);
              ("b", [("name", VStr "Bo")])];
     edge := [(("a", "b"), [(0%Z, [("class", VStr "KNOWS")])])] |}.

(** A graph with the single node [a]. *)
Definition one_node_graph : MultiDiGraph :=
  {| node := [("a", [("class", VStr "Person"); ("name", VStr "Ann")])];
     edge := [] |}.

Definition pattern_node (d : option string) (c : option string) (conds : dict)
  : Node :=
  {| designation := d; node_class := c; attribute_conditions := Some conds;
     connecting_edges := []; next_anonymous_variable := None |}.

Definition match_query (pattern : list Node) (filter0 : option clause)
    (items : list return_item) : MatchWhereReturnQuery :=
  {| match_clause :=
       Some {| literals := Some {| literal_list := pattern |};
               mq_where_clause := None |};
     where_clause := filter0;
     return_variables := {| variable_list := items |} |}.

(** A key-path fails to resolve on a value when one of its steps meets a
    dictionary without the key (a missing key) or a value that is not a
    dictionary (a type mismatch). *)
Fixpoint keypath_fails (value : pyval) (keypath : list string) : bool :=
  match keypath with
  | [] => false
  | key :: rest =>
      match value with
      | VDict items =>
          match dict_lookup items key with
          | Some v => keypath_fails v rest
          | None => true
          end
      | _ => true
      end
  end.

(** The test of the [EdgeExists] branch: some edge between the two bound
    nodes has a class equal to the label of the fact. *)
Definition some_edge_has_class (g : MultiDiGraph) (source target : string)
    (edge_label : option string) : bool :=
  existsb (fun e => label_eqb (_edge_class (snd e)) edge_label)
    (_edges_connecting_nodes g source target).

(** The pattern (n)-->(m) RETURN n: the edge fact carries no label. *)
Definition unlabeled_edge_query : MatchWhereReturnQuery :=
  match_query
    [ {| designation := Some "n"; node_class := None;
         attribute_conditions := Some [];
         connecting_edges := [EdgeExists "n" "m" None];
         next_anonymous_variable := None |};
      pattern_node (Some "m") None [] ]
    None [ReturnName "n"].

Definition sample_world : world :=
  {| graph := {| node := []; edge := [] |};
     random_hash := fun i => pretty i;
     drawn := 0;
     key_rank := fun _ k => String.length k |}.

(** MATCH (n {name: "Zed"}) RETURN n *)
Definition inline_condition_query : MatchWhereReturnQuery :=
  match_query [pattern_node (Some "n") None [("name", VStr "Zed")]] None
    [ReturnName "n"].

(** MATCH (n) WHERE n.name = "Zed" RETURN n *)
Definition filter_condition_query : MatchWhereReturnQuery :=
  match_query [pattern_node (Some "n") None []]
    (Some (Constraint ["n"; "name"] (LitStr "Zed"))) [ReturnName "n"].

(** MATCH (n), (m) RETURN n, m.name *)
Definition name_then_path_query : MatchWhereReturnQuery :=
  match_query [pattern_node (Some "n") None []; pattern_node (Some "m") None []]
    None [ReturnName "n"; ReturnPath ["m"; "name"]].

(** MATCH (n) RETURN n.name *)
Definition path_query : MatchWhereReturnQuery :=
  match_query [pattern_node (Some "n") None []] None
    [ReturnPath ["n"; "name"]].

(** A pattern node without a designation; [counter] is the value of its
    own attribute [next_anonymous_variable], if it has one. *)
Definition anonymous_node (c : string) (counter : option Z) : Node :=
  {| designation := None; node_class := Some c;
     attribute_conditions := Some []; connecting_edges := [];
     next_anonymous_variable := counter |}.

Definition extracted_designations (q : MatchWhereReturnQuery)
  : list (option string) :=
  match match_clause q with
  | Some {| literals := Some ls |} => map designation (literal_list ls)
  | _ => []
  end.

(** CREATE (n:Person {name: "Ann"})-[:KNOWS]->(m:Person {name: "Bo"})
    RETURN n *)
Definition create_sample_query : CreateReturnQuery :=
  {| create_clause :=
       Some {| cc_literals :=
                 Some {| literal_list :=
                   [ {| designation := Some "n"; node_class := Some "Person";
                        attribute_conditions := Some [("name", VStr "Ann")];
                        connecting_edges := [EdgeExists "n" "m" (Some "KNOWS")];
                        next_anonymous_variable := None |};
                     pattern_node (Some "m") (Some "Person")
                       [("name", VStr "Bo")] ] |} |};
     cr_return_variables := {| variable_list := [ReturnName "n"] |} |}.

(** The pattern (n)-[:KNOWS]->(m) RETURN n. *)
Definition labeled_edge_query : MatchWhereReturnQuery :=
  match_query
    [ {| designation := Some "n"; node_class := None;
         attribute_conditions := Some [];
         connecting_edges := [EdgeExists "n" "m" (Some "KNOWS")];
         next_anonymous_variable := None |};
      pattern_node (Some "m") None [] ]
    None [ReturnName "n"].

(** Every pattern node of the match clause has a designation. *)
Definition all_designated (q : MatchWhereReturnQuery) : Prop :=
  match match_clause q with
  | Some {| literals := Some ls |} =>
      Forall (fun n => designation n <> None) (literal_list ls)
  | _ => True
  end.

(** The return list is empty or starts with a bare designation. *)
Definition starts_with_name (items : list return_item) : bool :=
  match items with
  | [] => true
  | ReturnName _ :: _ => true
  | ReturnPath _ :: _ => false
  end.

(** The verdict of the facts on a candidate assignment: [true] when all
    of them are evaluated without an exception and none fails. *)
Definition satisfies (g : MultiDiGraph) (all_designations : list string)
    (atomic_facts : list atomic_fact) (domain_assignment : list string) : bool :=
  match check_facts g (make_var_to_element all_designations domain_assignment)
          true atomic_facts with
  | Ok true => true
  | _ => false
  end.

(** The pattern nodes of a match query, in the order of its literal list. *)
Definition pattern_nodes (q : MatchWhereReturnQuery) : list Node :=
  match match_clause q with
  | Some {| literals := Some ls |} => literal_list ls
  | _ => []
  end.

Definition where_facts (w : option clause) : list atomic_fact :=
  match w with
  | Some c => [WhereClause c]
  | None => []
  end.

(** The facts of a match query whose pattern nodes have their
    designations: the facts of each node in turn, then the filter of the
    match clause, then the filter of the query. *)
Definition facts_of (q : MatchWhereReturnQuery) : list atomic_fact :=
  flat_map node_facts (pattern_nodes q)
  ++ match match_clause q with
     | Some mq => where_facts (mq_where_clause mq)
     | None => []
     end
  ++ where_facts (where_clause q).

(** Every constraint of the clause starts with a variable that the
    assignment binds to a node of the graph. *)
Fixpoint clause_bound (g : MultiDiGraph) (v2e : gmap string string)
    (c : clause) : bool :=
  match c with
  | Or l r => clause_bound g v2e l && clause_bound g v2e r
  | Not a => clause_bound g v2e a
  | Constraint [] _ => false
  | Constraint (x :: _) _ =>
      match v2e !! x with
      | Some e => match assoc (node g) e with Some _ => true | None => false end
      | None => false
      end
  end.

(** The node named [e] passes the class test of a pattern node: any node
    when the pattern has no class, else a node whose attribute [class] is
    the required name. *)
Definition node_has_class (g : MultiDiGraph) (c : option string) (e : string)
  : bool :=
  match c with
  | None => true
  | Some _ =>
      match assoc (node g) e with
      | Some attrs => label_eqb (default VNone (dict_lookup attrs "class")) c
      | None => false
      end
  end.

(** A match query with one pattern node and no filter. *)
Definition single_node_query (n : Node) (items : list return_item)
  : MatchWhereReturnQuery :=
  match_query [n] None items.

(** The number of edges of a graph, parallel edges included. *)
Definition edge_count (g : MultiDiGraph) : nat :=
  list_sum (map (fun p => length (snd p)) (edge g)).

(** What the world [w'] keeps of an earlier world [w]: the two sources of
    the world, every node name, every edge, and the attributes of every
    node whose name is not an identifier drawn in between. *)
Definition keeps (w w' : world) : Prop :=
  random_hash w' = random_hash w
  /\ key_rank w' = key_rank w
  /\ (drawn w <= drawn w')%nat
  /\ (forall e, e ∈ _get_domain (graph w) -> e ∈ _get_domain (graph w'))
  /\ (forall source target x,
        x ∈ _edges_connecting_nodes (graph w) source target ->
        x ∈ _edges_connecting_nodes (graph w') source target)
  /\ (forall e,
        (forall i, (drawn w <= i < drawn w')%nat ->
                   e <> "_id_" +:+ random_hash w i) ->
        assoc (node (graph w')) e = assoc (node (graph w)) e).

(** Every identifier in the table of created nodes names a node of the
    graph. *)
Definition nodes_exist (w : world) (l : Create.locals) : Prop :=
  forall d id, Create.designation_to_node l !! d = Some id ->
               id ∈ _get_domain (graph w).

(** A world whose graph holds the node [a]. *)
Definition one_node_world : world :=
  {| graph := one_node_graph;
     random_hash := fun i => pretty i;
     drawn := 0;
     key_rank := fun _ k => String.length k |}.

(** CREATE (n:Person {name: "Zed"}) with an edge fact from [n] to a
    designation [z] that no literal declares. *)
Definition dangling_edge_create_query : CreateReturnQuery :=
  {| create_clause :=
       Some {| cc_literals :=
                 Some {| literal_list :=
                   [ {| designation := Some "n"; node_class := Some "Person";
                        attribute_conditions := Some [("name", VStr "Zed")];
                        connecting_edges := [EdgeExists "n" "z" None];
                        next_anonymous_variable := None |} ] |} |};
     cr_return_variables := {| variable_list := [ReturnName "n"] |} |}.

(** The pattern-node literals of a CREATE query. *)
Definition pattern_nodes_of_create (q : CreateReturnQuery) : list Node :=
  match create_clause q with
  | Some {| cc_literals := Some ls |} => literal_list ls
  | _ => []
  end.

(** Every constraint of the clause starts with a designation of [ds]. *)
Fixpoint clause_scoped (ds : list string) (c : clause) : bool :=
  match c with
  | Or l r => clause_scoped ds l && clause_scoped ds r
  | Not a => clause_scoped ds a
  | Constraint [] _ => false
  | Constraint (x :: _) _ => bool_decide (x ∈ ds)
  end.

(** The fact mentions designations of [ds] only. *)
Definition fact_scoped (ds : list string) (f : atomic_fact) : bool :=
  match f with
  | ClassIs (Some d) _ => bool_decide (d ∈ ds)
  | ClassIs None _ => false
  | EdgeExists node_1 node_2 _ =>
      bool_decide (node_1 ∈ ds) && bool_decide (node_2 ∈ ds)
  | NodeHasDocument _ _ => true
  | WhereClause c => clause_scoped ds c
  end.

(** The row of a candidate for a return list that starts with the bare
    designation [x]: the node bound to [x]. *)
Definition bound_row (ds : list string) (x : string) (a : list string)
  : list pyval :=
  [VStr (default "" (make_var_to_element ds a !! x))].

(** Every designation of [ds] is bound to a node of the graph. *)
Definition well_bound (g : MultiDiGraph) (ds : list string)
    (v2e : gmap string string) : Prop :=
  forall d, d ∈ ds ->
    exists e attrs, v2e !! d = Some e /\ assoc (node g) e = Some attrs.

Definition is_NodeHasDocument (f : atomic_fact) : bool :=
  match f with
  | NodeHasDocument _ _ => true
  | _ => false
  end.

(** * Properties of the engine *)

(** ** Key-path resolution *)

Lemma keypath_fails_length value keypath :
  keypath_fails value keypath = true -> (1 <= length keypath)%nat.
Proof. destruct keypath; simpl; [discriminate | lia]. Qed.

(** The filter-side resolution returns for every value and key-path. *)
Lemma keypath_never_raises value keypath :
  exists v, _attribute_value_from_node_keypath value keypath = Ok v.
Proof.
  revert value. induction keypath as [|key rest IH]; intros value; simpl.
  - eauto.
  - destruct value as [| z | s | items]; simpl; eauto.
    destruct (dict_lookup items key) as [v|]; eauto.
Qed.

Lemma keypath_fails_absent value keypath :
  keypath_fails value keypath = true ->
  _attribute_value_from_node_keypath value keypath = Ok VNone.
Proof.
  revert value. induction keypath as [|key rest IH]; intros value Hf; simpl in *.
  - discriminate.
  - destruct value as [| z | s | items]; simpl; try reflexivity.
    destruct (dict_lookup items key) as [v|]; [apply IH, Hf | reflexivity].
Qed.

Lemma literal_eqb_absent (l : literal) : literal_eqb VNone l = false.
Proof. destruct l; reflexivity. Qed.

Lemma var_lookup_bound (v2e : gmap string string) (d element : string) :
  v2e !! d = Some element -> var_lookup v2e (Some d) = Ok element.
Proof. intros H. unfold var_lookup. rewrite H. reflexivity. Qed.

Lemma _get_node_present g element attrs :
  assoc (node g) element = Some attrs -> _get_node g element = Ok (VDict attrs).
Proof. intros H. unfold _get_node. rewrite H. reflexivity. Qed.

(** C8. An equality constraint whose key-path (one step or more after the
    bound variable) fails to resolve on the bound node, by a missing key at
    any step or by a value that cannot be indexed, evaluates to false and
    raises nothing, whatever the node, the key-path and the literal. *)
Theorem C8_unresolved_keypath_is_false
    (g : MultiDiGraph) (v2e : gmap string string) (var element : string)
    (attrs : dict) (keypath : list string) (lit : literal) :
  v2e !! var = Some element ->
  assoc (node g) element = Some attrs ->
  keypath_fails (VDict attrs) keypath = true ->
  _eval_constraint g v2e (var :: keypath) lit = Ok false
  /\ _eval_boolean g v2e (Constraint (var :: keypath) lit) = Ok false.
Proof.
  intros Hvar Hnode Hfail.
  assert (H : _eval_constraint g v2e (var :: keypath) lit = Ok false).
  { unfold _eval_constraint.
    rewrite (var_lookup_bound _ _ _ Hvar). cbn [rbind].
    rewrite (_get_node_present _ _ _ Hnode). cbn [rbind].
    rewrite (keypath_fails_absent _ _ Hfail). cbn [rbind].
    rewrite literal_eqb_absent. reflexivity. }
  split; [exact H | exact H].
Qed.

Lemma C8_unresolved_keypath_is_false_witness :
  _eval_constraint sample_graph {[ "n" := "b" ]} ["n"; "name"; "first"]
    (LitStr "Bo") = Ok false
  /\ _eval_boolean sample_graph {[ "n" := "b" ]}
       (Constraint ["n"; "name"; "first"] (LitStr "Bo")) = Ok false.
Proof.
  apply (C8_unresolved_keypath_is_false sample_graph {[ "n" := "b" ]} "n" "b"
           [("name", VStr "Bo")] ["name"; "first"] (LitStr "Bo")).
  - vm_compute. reflexivity.
  - reflexivity.
  - reflexivity.
Defined.

(** ** Projection of a return key-path *)

(** On a node, a key-path of one step never raises: [get] answers [None]
    for a key the dictionary lacks. *)
Lemma _node_attribute_value_one_step (items : dict) (attribute : string) :
  _node_attribute_value (VDict items) [attribute]
  = Ok (default VNone (dict_lookup items attribute)).
Proof.
  unfold _node_attribute_value. simpl.
  destruct (dict_lookup items attribute); reflexivity.
Qed.

(** A missing step that is not the last one raises at the step after it,
    and the error names that later attribute. *)
Lemma _node_attribute_value_missing_then (items : dict) (missing next : string)
    (rest : list string) :
  dict_lookup items missing = None ->
  _node_attribute_value (VDict items) (missing :: next :: rest)
  = Raise (NonExistentAttribute next (VDict items)).
Proof.
  intros H. unfold _node_attribute_value. simpl. rewrite H. reflexivity.
Qed.

(** C5. The node [a] has no attribute [age]. Projecting the return item
    [n.age] yields the row [[None]] and raises nothing; the filter-side
    resolution of the same path gives [None] as well. With the missing
    attribute [address] followed by [city], the error that is raised names
    [city]. *)
Theorem C5_missing_return_attribute_yields_None :
  dict_lookup [("class", VStr "Person"); ("name", VStr "Ann")] "age" = None
  /\ _node_attribute_value
       (VDict [("class", VStr "Person"); ("name", VStr "Ann")]) ["age"]
     = Ok VNone
  /\ snd (matching_nodes one_node_graph
            (match_query [pattern_node (Some "n") None []] None
               [ReturnPath ["n"; "age"]]))
     = {| rows := [[VNone]]; error := None |}
  /\ _attribute_value_from_node_keypath
       (VDict [("class", VStr "Person"); ("name", VStr "Ann")]) ["age"]
     = Ok VNone
  /\ _node_attribute_value
       (VDict [("class", VStr "Person"); ("name", VStr "Ann")])
       ["address"; "city"]
     = Raise (NonExistentAttribute "city"
                (VDict [("class", VStr "Person"); ("name", VStr "Ann")])).
Proof. repeat split; vm_compute; reflexivity. Qed.

(** ** Class facts *)

Lemma label_eqb_Some (v : pyval) (c : string) :
  label_eqb v (Some c) = true <-> v = VStr c.
Proof.
  destruct v as [| z | s | items]; simpl; try (split; [discriminate | congruence]).
  rewrite String.eqb_eq. split; congruence.
Qed.

Lemma check_fact_ClassIs g (v2e : gmap string string) d c element attrs sentinal :
  v2e !! d = Some element ->
  assoc (node g) element = Some attrs ->
  check_fact g v2e sentinal (ClassIs (Some d) (Some c))
  = Ok (if label_eqb (default VNone (dict_lookup attrs "class")) (Some c)
        then sentinal else false).
Proof.
  intros Hvar Hnode. unfold check_fact.
  rewrite (var_lookup_bound _ _ _ Hvar). cbn [rbind].
  rewrite (_get_node_present _ _ _ Hnode). cbn [rbind].
  unfold _node_class, py_get.
  destruct (dict_lookup attrs "class") as [v|]; cbn [rbind default];
    rewrite bool_decide_true by discriminate; cbn [andb];
    destruct (label_eqb _ (Some c)); reflexivity.
Qed.

(** C7, as the spec states it, fails: the node [b] has no class label and
    the fact that requires the class [Person] rejects it. *)
Lemma C7_counterexample :
  ~ (forall (g : MultiDiGraph) (v2e : gmap string string) (d c element : string)
            (attrs : dict),
        v2e !! d = Some element ->
        assoc (node g) element = Some attrs ->
        dict_lookup attrs "class" = None ->
        check_fact g v2e true (ClassIs (Some d) (Some c)) = Ok true).
Proof.
  intros H.
  specialize (H sample_graph {[ "n" := "b" ]} "n" "Person" "b"
                [("name", VStr "Bo")]).
  assert (Hf : check_fact sample_graph {[ "n" := "b" ]} true
                 (ClassIs (Some "n") (Some "Person")) = Ok false)
    by (vm_compute; reflexivity).
  rewrite H in Hf; [discriminate | vm_compute; reflexivity | reflexivity
                   | reflexivity].
Qed.

(** C7, amended. A class fact that carries a required class name leaves
    the verdict alone when the bound node's class label is that name, and
    fails in every other case: when the label differs and when the node has
    no class label at all. *)
Theorem C7_ClassIs_requires_the_label
    (g : MultiDiGraph) (v2e : gmap string string) (d c element : string)
    (attrs : dict) (sentinal : bool) :
  v2e !! d = Some element ->
  assoc (node g) element = Some attrs ->
  (dict_lookup attrs "class" = Some (VStr c) ->
   check_fact g v2e sentinal (ClassIs (Some d) (Some c)) = Ok sentinal)
  /\ (dict_lookup attrs "class" <> Some (VStr c) ->
      check_fact g v2e sentinal (ClassIs (Some d) (Some c)) = Ok false)
  /\ (dict_lookup attrs "class" = None ->
      check_fact g v2e sentinal (ClassIs (Some d) (Some c)) = Ok false).
Proof.
  intros Hvar Hnode.
  rewrite (check_fact_ClassIs g v2e d c element attrs sentinal Hvar Hnode).
  assert (Hne : dict_lookup attrs "class" <> Some (VStr c) ->
                label_eqb (default VNone (dict_lookup attrs "class")) (Some c)
                = false).
  { intros Hd. destruct (label_eqb _ (Some c)) eqn:E; [|reflexivity].
    apply label_eqb_Some in E. destruct (dict_lookup attrs "class"); simpl in E.
    - congruence.
    - discriminate. }
  split; [|split].
  - intros Hd. rewrite Hd. simpl. rewrite String.eqb_refl. reflexivity.
  - intros Hd. rewrite (Hne Hd). reflexivity.
  - intros Hd. rewrite Hne; [reflexivity | congruence].
Qed.

Lemma C7_ClassIs_requires_the_label_witness :
  (dict_lookup [("name", VStr "Bo")] "class" = Some (VStr "Person") ->
   check_fact sample_graph {[ "n" := "b" ]} true
     (ClassIs (Some "n") (Some "Person")) = Ok true)
  /\ (dict_lookup [("name", VStr "Bo")] "class" <> Some (VStr "Person") ->
      check_fact sample_graph {[ "n" := "b" ]} true
        (ClassIs (Some "n") (Some "Person")) = Ok false)
  /\ (dict_lookup [("name", VStr "Bo")] "class" = None ->
      check_fact sample_graph {[ "n" := "b" ]} true
        (ClassIs (Some "n") (Some "Person")) = Ok false).
Proof.
  apply (C7_ClassIs_requires_the_label sample_graph {[ "n" := "b" ]} "n"
           "Person" "b" [("name", VStr "Bo")] true).
  - vm_compute. reflexivity.
  - reflexivity.
Defined.

(** ** Edge facts *)

Lemma check_fact_EdgeExists g (v2e : gmap string string) node_1 node_2
    source target edge_label sentinal :
  v2e !! node_1 = Some source ->
  v2e !! node_2 = Some target ->
  check_fact g v2e sentinal (EdgeExists node_1 node_2 edge_label)
  = Ok (if some_edge_has_class g source target edge_label
        then sentinal else false).
Proof.
  intros H1 H2. unfold check_fact, some_edge_has_class.
  rewrite (var_lookup_bound _ _ _ H1). cbn [rbind].
  rewrite (var_lookup_bound _ _ _ H2). cbn [rbind].
  destruct (existsb _ _); reflexivity.
Qed.

(** With a label, the fact holds exactly when some edge between the two
    bound nodes has that class. *)
Lemma EdgeExists_labeled_iff g (v2e : gmap string string) node_1 node_2
    source target (label : string) :
  v2e !! node_1 = Some source ->
  v2e !! node_2 = Some target ->
  check_fact g v2e true (EdgeExists node_1 node_2 (Some label)) = Ok true
  <-> exists e, In e (_edges_connecting_nodes g source target)
                /\ _edge_class (snd e) = VStr label.
Proof.
  intros H1 H2.
  rewrite (check_fact_EdgeExists g v2e node_1 node_2 source target _ true H1 H2).
  unfold some_edge_has_class.
  destruct (existsb _ _) eqn:E.
  - split; [intros _ | reflexivity].
    apply existsb_exists in E. destruct E as [e [Hin He]].
    exists e. split; [exact Hin | apply label_eqb_Some, He].
  - split; [discriminate |].
    intros [e [Hin He]]. exfalso.
    assert (Ht : existsb (fun e => label_eqb (_edge_class (snd e)) (Some label))
                   (_edges_connecting_nodes g source target) = true).
    { apply existsb_exists. exists e. split; [exact Hin |].
      apply label_eqb_Some, He. }
    congruence.
Qed.

(** C6. Between [a] and [b] there is one edge, of class [KNOWS]. The edge
    fact without a label rejects the assignment of [n] to [a] and [m] to
    [b], and the query yields no row; the same fact with the label [KNOWS]
    accepts the assignment. *)
Theorem C6_unlabeled_fact_rejects_labeled_edge :
  _edges_connecting_nodes sample_graph "a" "b"
  = [(0%Z, VDict [("class", VStr "KNOWS")])]
  /\ check_fact sample_graph {[ "n" := "a"; "m" := "b" ]} true
       (EdgeExists "n" "m" None) = Ok false
  /\ check_fact sample_graph {[ "n" := "a"; "m" := "b" ]} true
       (EdgeExists "n" "m" (Some "KNOWS")) = Ok true
  /\ snd (matching_nodes sample_graph unlabeled_edge_query)
     = {| rows := []; error := None |}.
Proof. repeat split; vm_compute; reflexivity. Qed.

(** ** Edges made by [_create_edge] *)

Lemma pair_eqb_eq (p q : string * string) : pair_eqb p q = true <-> p = q.
Proof.
  destruct p as [p1 p2], q as [q1 q2]. unfold pair_eqb. simpl.
  rewrite andb_true_iff, !String.eqb_eq. split.
  - intros [-> ->]. reflexivity.
  - intros [= -> ->]. split; reflexivity.
Qed.

Lemma pair_eqb_refl (p : string * string) : pair_eqb p p = true.
Proof. apply pair_eqb_eq. reflexivity. Qed.

Lemma pair_eqb_neq (p q : string * string) : p <> q -> pair_eqb p q = false.
Proof.
  intros H. destruct (pair_eqb p q) eqn:E; [|reflexivity].
  apply pair_eqb_eq in E. contradiction.
Qed.

(** The key dictionary of a pair after [put_edge]: the new edge comes last
    between its own end points, every other pair is untouched. *)
Lemma assoc_pair_put_edge_same edges uv attr :
  exists key,
    assoc_pair (put_edge edges uv attr) uv
    = Some (default [] (assoc_pair edges uv) ++ [(key, attr)]).
Proof.
  induction edges as [| [uv' keydict] rest IH]; simpl.
  - rewrite pair_eqb_refl. exists 0%Z. reflexivity.
  - destruct (pair_eqb uv' uv) eqn:E; simpl; rewrite E.
    + eexists. reflexivity.
    + exact IH.
Qed.

Lemma assoc_pair_put_edge_other edges uv attr uv' :
  uv <> uv' ->
  assoc_pair (put_edge edges uv attr) uv' = assoc_pair edges uv'.
Proof.
  intros Hne. induction edges as [| [uv0 keydict] rest IH]; simpl.
  - rewrite pair_eqb_neq by exact Hne. reflexivity.
  - destruct (pair_eqb uv0 uv) eqn:E; simpl.
    + apply pair_eqb_eq in E. subst uv0.
      rewrite pair_eqb_neq by exact Hne. reflexivity.
    + rewrite IH. reflexivity.
Qed.

Lemma edge_add_edge rank g u v attr :
  edge (add_edge rank g u v attr) = put_edge (edge g) (u, v) attr.
Proof.
  unfold add_edge.
  destruct (assoc (node g) u); simpl;
    match goal with |- context [assoc ?l v] => destruct (assoc l v) end;
    reflexivity.
Qed.

Lemma edges_after_add_edge_same rank g u v attr :
  exists key,
    _edges_connecting_nodes (add_edge rank g u v attr) u v
    = _edges_connecting_nodes g u v ++ [(key, VDict attr)].
Proof.
  unfold _edges_connecting_nodes. rewrite edge_add_edge.
  destruct (assoc_pair_put_edge_same (edge g) (u, v) attr) as [key Hk].
  exists key. rewrite Hk.
  destruct (assoc_pair (edge g) (u, v)); simpl.
  - rewrite map_app. reflexivity.
  - reflexivity.
Qed.

Lemma edges_after_add_edge_other rank g u v attr source target :
  (u, v) <> (source, target) ->
  _edges_connecting_nodes (add_edge rank g u v attr) source target
  = _edges_connecting_nodes g source target.
Proof.
  intros Hne. unfold _edges_connecting_nodes. rewrite edge_add_edge.
  rewrite assoc_pair_put_edge_other by exact Hne. reflexivity.
Qed.

(** The class of an edge made by [_create_edge] is [None]: the label sits
    under the key [edge_label], and [_edge_class] reads the key [class]. *)
Lemma _edge_class_created (edge_label : option string) (new_edge_id : string) :
  _edge_class (VDict (Create.created_edge_data edge_label new_edge_id)) = VNone.
Proof. reflexivity. Qed.




(** ** Document facts *)

(** A [NodeHasDocument] fact takes no part in the verdict on an
    assignment: dropping it from the facts changes nothing. *)
Lemma check_facts_skips_documents g (v2e : gmap string string) before d doc after
    sentinal :
  check_facts g v2e sentinal (before ++ NodeHasDocument d doc :: after)
  = check_facts g v2e sentinal (before ++ after).
Proof.
  revert sentinal. induction before as [|fact before IH]; intros sentinal; simpl.
  - reflexivity.
  - destruct (check_fact g v2e sentinal fact) as [s'|e]; cbn [rbind];
      [apply IH | reflexivity].
Qed.

(** C1. The only node of the graph is named [Ann]. The pattern with the
    inline condition [name = Zed] gives the fact [NodeHasDocument] with
    that condition, and the query still yields the node; the same
    condition as a filter clause yields nothing. *)
Theorem C1_inline_conditions_do_not_constrain :
  snd (extract_atomic_facts_match inline_condition_query)
  = Ok [ClassIs (Some "n") None;
        NodeHasDocument (Some "n") (Some [("name", VStr "Zed")])]
  /\ snd (matching_nodes one_node_graph inline_condition_query)
     = {| rows := [[VStr "a"]]; error := None |}
  /\ snd (matching_nodes one_node_graph filter_condition_query)
     = {| rows := []; error := None |}.
Proof. repeat split; vm_compute; reflexivity. Qed.

(** ** Projection of the return list *)

(** A bare designation ends the row: whatever follows it in the return
    list, the row holds the values gathered so far and the bound node. *)
Lemma project_stops_at_name g (v2e : gmap string string) name element rest row :
  v2e !! name = Some element ->
  project g v2e (ReturnName name :: rest) row
  = (ReturnName name :: rest, Ok (row ++ [VStr element])).
Proof.
  intros H. cbn [project]. rewrite (var_lookup_bound _ _ _ H). reflexivity.
Qed.

(** A key-path item loses its designation when it is projected. *)
Lemma project_pops_designation g (v2e : gmap string string) d path rest row :
  exists rest' r,
    project g v2e (ReturnPath (d :: path) :: rest) row
    = (ReturnPath path :: rest', r).
Proof.
  cbn [project].
  destruct (let! element := var_lookup v2e (Some d) in
            let! node0 := _get_node g element in
            _node_attribute_value node0 path) as [v|e].
  - destruct (project g v2e rest (row ++ [v])) as [rest' r]. eauto.
  - eauto.
Qed.

(** C2. With the return list [n, m.name] every row holds one value, the
    node bound to [n]: the item after the bare designation is not
    projected. With the return list [n.name] and the two satisfying
    assignments of [n] to [a] and to [b], the first row is projected and
    the second projection raises [KeyError], the item having lost its
    designation. *)
Theorem C2_projection_stops_and_decays :
  snd (matching_nodes sample_graph name_then_path_query)
  = {| rows := [[VStr "a"]; [VStr "b"]; [VStr "a"]; [VStr "b"]];
       error := None |}
  /\ snd (matching_nodes sample_graph path_query)
     = {| rows := [[VStr "Ann"]]; error := Some (KeyError (Some "name")) |}
  /\ variable_list
       (return_variables (fst (matching_nodes sample_graph path_query)))
     = [ReturnPath []].
Proof. repeat split; vm_compute; reflexivity. Qed.

(** ** Two runs on one AST *)

(** C9. On the graph with the single node [a] and the AST of
    MATCH (n) RETURN n.name, the first run yields the row [[Ann]]; the
    second run on the same AST object, which the first run left with the
    return item [[name]], yields no row and raises [KeyError]. *)
Theorem C9_second_run_differs :
  let first_run := matching_nodes one_node_graph path_query in
  let second_run := matching_nodes one_node_graph (fst first_run) in
  snd first_run = {| rows := [[VStr "Ann"]]; error := None |}
  /\ variable_list (return_variables (fst first_run)) = [ReturnPath ["name"]]
  /\ snd second_run = {| rows := []; error := Some (KeyError (Some "name")) |}.
Proof. repeat split; vm_compute; reflexivity. Qed.

(** ** Names of anonymous pattern nodes *)

(** The counter of [_recurse] is read and never written. *)
Lemma _recurse_Node_counter st n :
  _recurse_next_anonymous_variable (snd (fst (_recurse_Node st n)))
  = _recurse_next_anonymous_variable st.
Proof.
  unfold _recurse_Node.
  destruct (designation n); [reflexivity |]. simpl.
  destruct (next_anonymous_variable n); reflexivity.
Qed.

Lemma _recurse_literal_list_counter st l :
  _recurse_next_anonymous_variable (snd (fst (_recurse_literal_list st l)))
  = _recurse_next_anonymous_variable st.
Proof.
  revert st. induction l as [|n rest IH]; intros st; simpl.
  - reflexivity.
  - pose proof (_recurse_Node_counter st n) as Hn.
    destruct (_recurse_Node st n) as [[n' st'] [u|e]]; simpl in Hn.
    + specialize (IH st').
      destruct (_recurse_literal_list st' rest) as [[rest' st''] r].
      simpl in *. congruence.
    + simpl. exact Hn.
Qed.

(** A node keeps the designation it has, or gets the name made from the
    counter. *)
Lemma _recurse_Node_name st n :
  designation (fst (fst (_recurse_Node st n)))
  = Some (default ("_v" +:+ pretty (_recurse_next_anonymous_variable st))
            (designation n)).
Proof.
  unfold _recurse_Node.
  destruct (designation n) eqn:E; simpl; [exact E |].
  destruct (next_anonymous_variable n); reflexivity.
Qed.

(** In one call, every anonymous node that is reached gets the name made
    from the initial value of the counter. *)
Lemma _recurse_literal_list_names st l :
  Forall2
    (fun n n' =>
       designation n' = designation n
       \/ designation n'
          = Some ("_v" +:+ pretty (_recurse_next_anonymous_variable st)))
    l (fst (fst (_recurse_literal_list st l))).
Proof.
  revert st. induction l as [|n rest IH]; intros st; simpl.
  - constructor.
  - pose proof (_recurse_Node_name st n) as Hname.
    pose proof (_recurse_Node_counter st n) as Hcount.
    destruct (_recurse_Node st n) as [[n' st'] [u|e]]; simpl in Hname, Hcount.
    + specialize (IH st'). rewrite Hcount in IH.
      destruct (_recurse_literal_list st' rest) as [[rest' st''] r]. simpl in *.
      constructor; [|exact IH].
      destruct (designation n); simpl in Hname; [left | right]; exact Hname.
    + simpl. constructor.
      * destruct (designation n); simpl in Hname; [left | right]; exact Hname.
      * clear. induction rest; constructor; [left; reflexivity | assumption].
Qed.

(** C3. Two anonymous pattern nodes in one extraction call. When the
    nodes carry an attribute [next_anonymous_variable], both get the name
    [_v0] and the two class facts share it; when they carry none, the call
    raises [AttributeError] at the first of them. *)
Theorem C3_anonymous_nodes_share_v0 :
  let with_attribute :=
    match_query [anonymous_node "A" (Some 0%Z); anonymous_node "B" (Some 0%Z)]
      None [] in
  let without_attribute :=
    match_query [anonymous_node "A" None; anonymous_node "B" None] None [] in
  extracted_designations (fst (extract_atomic_facts_match with_attribute))
  = [Some "_v0"; Some "_v0"]
  /\ snd (extract_atomic_facts_match with_attribute)
     = Ok [ClassIs (Some "_v0") (Some "A"); NodeHasDocument (Some "_v0") None;
           ClassIs (Some "_v0") (Some "B"); NodeHasDocument (Some "_v0") None]
  /\ snd (extract_atomic_facts_match without_attribute) = Raise AttributeError
  /\ extracted_designations (fst (extract_atomic_facts_match without_attribute))
     = [Some "_v0"; None].
Proof. repeat split; vm_compute; reflexivity. Qed.

(** ** The CREATE path *)

Lemma _create_node_success w c conds w' conds' id :
  Create._create_node w c conds = (w', conds', Ok id) ->
  exists attrs,
    add_node_attr_dict (dict_set conds "class" (label_val c)) = Ok attrs
    /\ Create.collides_with_create_node conds = false
    /\ id = "_id_" +:+ random_hash w (drawn w)
    /\ w' = {| graph := add_node (key_rank w) (graph w) id attrs;
               random_hash := random_hash w;
               drawn := S (drawn w);
               key_rank := key_rank w |}.
Proof.
  unfold Create._create_node.
  destruct (Create.collides_with_create_node conds); [discriminate |].
  cbn [unique_id].
  destruct (add_node_attr_dict _) as [attrs|e]; [|discriminate].
  intros [= <- _ <-]. exists attrs. repeat split; reflexivity.
Qed.

Lemma _create_node_failure w c conds w' conds' e :
  Create._create_node w c conds = (w', conds', Raise e) ->
  graph w' = graph w /\ random_hash w' = random_hash w
  /\ key_rank w' = key_rank w
  /\ (drawn w' = drawn w \/ drawn w' = S (drawn w)).
Proof.
  unfold Create._create_node.
  destruct (Create.collides_with_create_node conds).
  - intros [= <- _ _]. repeat split; try reflexivity. left. reflexivity.
  - cbn [unique_id].
    destruct (add_node_attr_dict _) as [attrs|e0]; [discriminate |].
    intros [= <- _ _]. repeat split; try reflexivity. right. reflexivity.
Qed.

Lemma _create_edge_eq w s t lbl :
  Create._create_edge w s t lbl
  = ("_id_" +:+ random_hash w (drawn w),
     {| graph := add_edge (key_rank w) (graph w) s t
                   (Create.created_edge_data lbl
                      ("_id_" +:+ random_hash w (drawn w)));
        random_hash := random_hash w;
        drawn := S (drawn w);
        key_rank := key_rank w |}).
Proof. reflexivity. Qed.

(** The second loop leaves [designation_to_node] as it is. *)
Lemma create_edges_keeps_nodes facts :
  forall w l,
    Create.designation_to_node (snd (fst (Create.create_edges w l facts)))
    = Create.designation_to_node l.
Proof.
  induction facts as [|fact rest IH]; intros w l; cbn [Create.create_edges].
  - reflexivity.
  - destruct fact as [d c | n1 n2 lbl | d doc | c]; try apply IH.
    destruct (Create.designation_to_node l !! Some n1) as [s|]; [|reflexivity].
    destruct (Create.designation_to_node l !! Some n2) as [t|]; [|reflexivity].
    rewrite _create_edge_eq. rewrite IH. reflexivity.
Qed.

(** For every CREATE query the entry point yields no row. *)
Lemma create_query_yields_no_row (w : world) (q : CreateReturnQuery) :
  rows (snd (query w (PCreate q))) = [].
Proof.
  unfold query.
  destruct (Create.create_query w q) as [[w' q'] [u|e]]; reflexivity.
Qed.

(** C4. On the empty graph the sample query, which ends with RETURN n,
    creates its two nodes and its edge and ends without an exception. The
    executor binds [n] and [m] to the identifiers of the two nodes in its
    local table, and the value it returns is [None]; the entry point
    yields no row, as it does for every CREATE query. *)
Theorem C4_create_returns_no_row :
  let out := Create.create_query_body sample_world create_sample_query in
  let w' := fst (fst (fst out)) in
  let l := snd (fst out) in
  snd out = Ok tt
  /\ Create.designation_to_node l !! Some "n" = Some "_id_0"
  /\ Create.designation_to_node l !! Some "m" = Some "_id_1"
  /\ _get_node (graph w') "_id_0"
     = Ok (VDict [("name", VStr "Ann"); ("class", VStr "Person")])
  /\ _get_node (graph w') "_id_1"
     = Ok (VDict [("name", VStr "Bo"); ("class", VStr "Person")])
  /\ _edges_connecting_nodes (graph w') "_id_0" "_id_1"
     = [(0%Z, VDict [("edge_label", VStr "KNOWS"); ("_id", VStr "_id_2")])]
  /\ snd (Create.create_query sample_world create_sample_query) = Ok tt
  /\ snd (query sample_world (PCreate create_sample_query))
     = {| rows := []; error := None |}
  /\ (forall w q, rows (snd (query w (PCreate q))) = []).
Proof.
  repeat split; try (vm_compute; reflexivity).
  apply create_query_yields_no_row.
Qed.

(** ** When a second run repeats the first *)

(** A run leaves the AST as it found it when every pattern node has a
    designation and the return list is empty or starts with a bare
    designation; a second run on the same AST then repeats the first. *)
Lemma _recurse_Node_designated st n :
  designation n <> None ->
  _recurse_Node st n = (n, append_facts st (node_facts n), Ok tt).
Proof.
  intros H. unfold _recurse_Node.
  destruct (designation n); [reflexivity | contradiction].
Qed.

Lemma _recurse_literal_list_designated l :
  Forall (fun n => designation n <> None) l ->
  forall st, exists st', _recurse_literal_list st l = (l, st', Ok tt).
Proof.
  induction 1 as [|n rest Hn _ IH]; intros st; cbn [_recurse_literal_list].
  - eauto.
  - rewrite (_recurse_Node_designated st n Hn).
    destruct (IH (append_facts st (node_facts n))) as [st' ->]. eauto.
Qed.

Lemma extract_designated q :
  all_designated q ->
  exists facts, extract_atomic_facts_match q = (q, Ok facts).
Proof.
  destruct q as [mc wc rv]. unfold all_designated. simpl. intros H.
  unfold extract_atomic_facts_match, _recurse_MatchWhereReturnQuery. simpl.
  destruct mc as [[ls mw]|]; simpl.
  - destruct ls as [[l]|]; simpl.
    + destruct (_recurse_literal_list_designated l H _recurse_init) as [st' ->].
      simpl. eauto.
    + eauto.
  - eauto.
Qed.

Lemma project_starts_with_name g (v2e : gmap string string) items row :
  starts_with_name items = true ->
  fst (project g v2e items row) = items.
Proof.
  destruct items as [|[name | path] rest]; simpl; [reflexivity.. | discriminate].
Qed.

Lemma enumerate_starts_with_name g all_designations facts items assignments :
  starts_with_name items = true ->
  fst (enumerate g all_designations facts items assignments) = items.
Proof.
  intros Hs. induction assignments as [|a rest IH]; cbn [enumerate].
  - reflexivity.
  - unfold try_assignment.
    destruct (check_facts g _ true facts) as [[|]|e]; try exact IH; try reflexivity.
    pose proof (project_starts_with_name g
                  (make_var_to_element all_designations a) items [] Hs) as Hp.
    destruct (project g _ items []) as [items' [row|e]]; simpl in Hp; subst items'.
    + destruct (enumerate g all_designations facts items rest) as [l t].
      exact IH.
    + reflexivity.
Qed.

Lemma two_runs_agree g q :
  all_designated q ->
  starts_with_name (variable_list (return_variables q)) = true ->
  fst (matching_nodes g q) = q
  /\ snd (matching_nodes g (fst (matching_nodes g q))) = snd (matching_nodes g q).
Proof.
  intros Hd Hs.
  assert (Hq : fst (matching_nodes g q) = q).
  { unfold matching_nodes.
    destruct (extract_designated q Hd) as [facts ->].
    pose proof (enumerate_starts_with_name g (all_designations_of facts) facts
                  (variable_list (return_variables q))
                  (product (_get_domain g) (length (all_designations_of facts)))
                  Hs) as He.
    destruct (enumerate g _ facts _ _) as [l t]. simpl in He. subst l.
    destruct q as [mc wc [vl]]. reflexivity. }
  split; [exact Hq | rewrite Hq; reflexivity].
Qed.

(** After the sample CREATE query on the empty graph, the pattern with
    the label [KNOWS] finds nothing and the pattern without a label finds
    the created edge. *)
Example created_edge_matches_unlabeled_only :
  let w := fst (fst (query sample_world (PCreate create_sample_query))) in
  snd (matching_nodes (graph w) labeled_edge_query)
  = {| rows := []; error := None |}
  /\ snd (matching_nodes (graph w) unlabeled_edge_query)
     = {| rows := [[VStr "_id_0"]]; error := None |}.
Proof. split; vm_compute; reflexivity. Qed.

(** * Further properties *)

(** ** The variable domain *)

#[local] Instance str_le_total : Total str_le.
Proof. intros a b. unfold str_le. apply String.leb_total. Qed.

Lemma elem_of_all_designations facts d :
  d ∈ all_designations_of facts
  <-> exists fact, fact ∈ facts /\ fact_designation fact = Some d.
Proof.
  unfold all_designations_of.
  rewrite merge_sort_Permutation, elem_of_elements, elem_of_list_to_set,
    list_elem_of_omap.
  reflexivity.
Qed.

Lemma all_designations_NoDup facts : NoDup (all_designations_of facts).
Proof.
  unfold all_designations_of. rewrite merge_sort_Permutation.
  apply NoDup_elements.
Qed.

(** X1. The variable domain is the set of the designations that occur in the
    facts, as a list in ascending order without repetition. *)
Theorem all_designations_sorted_set facts :
  Sorted str_le (all_designations_of facts)
  /\ NoDup (all_designations_of facts)
  /\ forall d,
       d ∈ all_designations_of facts
       <-> exists fact, fact ∈ facts /\ fact_designation fact = Some d.
Proof.
  split; [apply (Sorted_merge_sort str_le) |].
  split; [apply all_designations_NoDup |].
  intros d. apply elem_of_all_designations.
Qed.

(** ** The candidate assignments *)

Lemma length_flat_map_const {A B} (f : A -> list B) (l : list A) (c : nat) :
  (forall x, length (f x) = c) -> length (flat_map f l) = length l * c.
Proof.
  intros Hf. induction l as [|x l IH]; simpl; [reflexivity |].
  rewrite length_app, Hf, IH. reflexivity.
Qed.

Lemma length_product domain k :
  length (product domain k) = length domain ^ k.
Proof.
  induction k as [|k IH]; simpl; [reflexivity |].
  rewrite (length_flat_map_const _ _ (length domain ^ k)).
  - reflexivity.
  - intros x. rewrite length_map. exact IH.
Qed.

Lemma elem_of_product domain k a :
  a ∈ product domain k
  <-> length a = k /\ Forall (fun x => x ∈ domain) a.
Proof.
  revert a. induction k as [|k IH]; intros a; simpl.
  - rewrite list_elem_of_singleton. split.
    + intros ->. split; [reflexivity | constructor].
    + intros [Hl _]. destruct a; [reflexivity | discriminate].
  - rewrite list_elem_of_In, in_flat_map. split.
    + intros (x & Hx & Ha). apply in_map_iff in Ha.
      destruct Ha as (a' & <- & Ha'). apply list_elem_of_In, IH in Ha'.
      destruct Ha' as [Hl Hall]. split; [simpl; congruence |].
      constructor; [apply list_elem_of_In, Hx | exact Hall].
    + intros [Hl Hall]. destruct a as [|x a']; [discriminate |].
      inversion Hall as [|? ? Hx Hall']; subst.
      exists x. split; [apply list_elem_of_In, Hx |].
      apply in_map_iff. exists a'. split; [reflexivity |].
      apply list_elem_of_In, IH. split; [simpl in Hl; lia | exact Hall'].
Qed.

(** X2. The search is exhaustive: the candidates are exactly the lists of
    [k] nodes of the domain, and there are [|domain| ^ k] of them. For
    [k = 0] there is one candidate, the empty one; for an empty domain and
    [k > 0] none. *)
Theorem product_is_exhaustive domain k :
  length (product domain k) = length domain ^ k
  /\ (forall a, a ∈ product domain k
                <-> length a = k /\ Forall (fun x => x ∈ domain) a)
  /\ product domain 0 = [[]]
  /\ product [] (S k) = [].
Proof.
  split; [apply length_product |].
  split; [intros a; apply elem_of_product |].
  split; reflexivity.
Qed.

Lemma assoc_of_key {A} (l : list (string * A)) (k : string) :
  k ∈ map fst l -> exists v, assoc l k = Some v.
Proof.
  induction l as [|[k' v] l IH]; simpl; intros H.
  - apply elem_of_nil in H. contradiction.
  - destruct (String.eqb k' k) eqn:E; [eauto |].
    apply elem_of_cons in H. destruct H as [-> | H].
    + rewrite String.eqb_refl in E. discriminate.
    + apply IH, H.
Qed.

Lemma make_var_to_element_lookup ds a i d e :
  NoDup ds -> length a = length ds ->
  ds !! i = Some d -> a !! i = Some e ->
  make_var_to_element ds a !! d = Some e.
Proof.
  intros Hnd Hlen Hd He. unfold make_var_to_element.
  apply elem_of_list_to_map_1.
  - rewrite fst_zip by lia. exact Hnd.
  - apply list_elem_of_lookup. exists i.
    apply lookup_zip_with_Some. eauto.
Qed.

Lemma make_var_to_element_unbound ds a x :
  x ∉ ds -> make_var_to_element ds a !! x = None.
Proof.
  intros Hx. unfold make_var_to_element.
  apply not_elem_of_list_to_map_1. intros Hin. apply Hx.
  apply list_elem_of_fmap in Hin. destruct Hin as ([d e] & -> & Hin).
  apply elem_of_zip_l in Hin. exact Hin.
Qed.

Lemma candidate_binding g ds a d :
  NoDup ds ->
  a ∈ product (_get_domain g) (length ds) ->
  d ∈ ds ->
  exists e attrs,
    make_var_to_element ds a !! d = Some e
    /\ e ∈ _get_domain g
    /\ assoc (node g) e = Some attrs.
Proof.
  intros Hnd Ha Hd. apply elem_of_product in Ha. destruct Ha as [Hlen Hall].
  apply list_elem_of_lookup in Hd. destruct Hd as [i Hi].
  destruct (lookup_lt_is_Some_2 a i) as [e He].
  { rewrite Hlen. eapply lookup_lt_Some, Hi. }
  assert (Hdom : e ∈ _get_domain g).
  { rewrite Forall_forall in Hall. apply Hall.
    eapply list_elem_of_lookup_2, He. }
  destruct (assoc_of_key (node g) e Hdom) as [attrs Hattrs].
  exists e, attrs. split; [|split; [exact Hdom | exact Hattrs]].
  eapply make_var_to_element_lookup; eauto.
Qed.

(** X3. In every candidate assignment each designation of the variable domain
    is bound to a node of the graph, and fetching that node succeeds. *)
Theorem candidate_binds_every_designation g facts a d :
  a ∈ product (_get_domain g) (length (all_designations_of facts)) ->
  d ∈ all_designations_of facts ->
  exists e attrs,
    make_var_to_element (all_designations_of facts) a !! d = Some e
    /\ e ∈ _get_domain g
    /\ _get_node g e = Ok (VDict attrs).
Proof.
  intros Ha Hd.
  destruct (candidate_binding g (all_designations_of facts) a d
              (all_designations_NoDup facts) Ha Hd)
    as (e & attrs & Hv & Hdom & Hattrs).
  exists e, attrs. split; [exact Hv |]. split; [exact Hdom |].
  apply _get_node_present, Hattrs.
Qed.

Lemma candidate_binds_every_designation_witness :
  exists e attrs,
    make_var_to_element
      (all_designations_of [ClassIs (Some "n") None; ClassIs (Some "m") None])
      ["a"; "b"] !! "n" = Some e
    /\ e ∈ _get_domain sample_graph
    /\ _get_node sample_graph e = Ok (VDict attrs).
Proof.
  apply (candidate_binds_every_designation sample_graph
           [ClassIs (Some "n") None; ClassIs (Some "m") None] ["a"; "b"] "n").
  - vm_compute. apply list_elem_of_In. vm_compute. tauto.
  - vm_compute. apply list_elem_of_In. vm_compute. tauto.
Defined.

(** ** The verdict on a candidate *)

Lemma check_fact_sentinal g (v2e : gmap string string) s f :
  check_fact g v2e s f
  = (let! b := check_fact g v2e true f in Ok (s && b)).
Proof.
  destruct f as [d c | n1 n2 lbl | d doc | c]; cbn [check_fact].
  - destruct (var_lookup v2e d) as [e|]; cbn [rbind]; [|reflexivity].
    destruct (_get_node g e) as [n|]; cbn [rbind]; [|reflexivity].
    destruct (_node_class n) as [v|]; cbn [rbind]; [|reflexivity].
    destruct (bool_decide (c <> None) && negb (label_eqb v c)), s; reflexivity.
  - destruct (var_lookup v2e (Some n1)) as [e1|]; cbn [rbind]; [|reflexivity].
    destruct (var_lookup v2e (Some n2)) as [e2|]; cbn [rbind]; [|reflexivity].
    destruct (negb _), s; reflexivity.
  - destruct s; reflexivity.
  - destruct (_eval_boolean g v2e c) as [b|]; cbn [rbind]; reflexivity.
Qed.

Lemma check_facts_sentinal g (v2e : gmap string string) facts s :
  check_facts g v2e s facts
  = (let! b := check_facts g v2e true facts in Ok (s && b)).
Proof.
  revert s. induction facts as [|f rest IH]; intros s; cbn [check_facts].
  - cbn [rbind]. rewrite andb_true_r. reflexivity.
  - rewrite (check_fact_sentinal g v2e s f).
    destruct (check_fact g v2e true f) as [b|e]; cbn [rbind]; [|reflexivity].
    rewrite (IH (s && b)), (IH b).
    destruct (check_facts g v2e true rest) as [b'|e]; cbn [rbind];
      [|reflexivity].
    rewrite andb_assoc. reflexivity.
Qed.

(** X4. The verdict on a candidate is the conjunction of the verdicts of the
    facts. A verdict that has turned false stays false, and the later
    facts are evaluated all the same: whether the loop raises does not
    depend on the verdict so far. *)
Theorem check_facts_is_conjunction g (v2e : gmap string string) facts :
  (forall s, check_facts g v2e s facts
             = (let! b := check_facts g v2e true facts in Ok (s && b)))
  /\ (check_facts g v2e true facts = Ok true
      <-> Forall (fun f => check_fact g v2e true f = Ok true) facts).
Proof.
  split; [intros s; apply check_facts_sentinal |].
  induction facts as [|f rest IH]; cbn [check_facts].
  - split; [constructor | reflexivity].
  - destruct (check_fact g v2e true f) as [b|e] eqn:Ef; cbn [rbind].
    + rewrite (check_facts_sentinal g v2e rest b).
      destruct (check_facts g v2e true rest) as [b'|e'] eqn:Er; cbn [rbind].
      * split.
        -- intros [= H]. apply andb_true_iff in H. destruct H as [-> ->].
           constructor; [exact Ef | apply IH; reflexivity].
        -- intros H. inversion H as [|? ? Hf Hrest]; subst.
           apply IH in Hrest.
           assert (b = true) by congruence. assert (b' = true) by congruence.
           subst. reflexivity.
      * split; [discriminate |].
        intros H. inversion H as [|? ? Hf Hrest]; subst.
        apply IH in Hrest. discriminate.
    + split; [discriminate |].
      intros H. inversion H as [|? ? Hf Hrest]; subst. congruence.
Qed.

Lemma check_facts_raises_member g (v2e : gmap string string) facts f e s :
  f ∈ facts -> check_fact g v2e true f = Raise e ->
  exists e', check_facts g v2e s facts = Raise e'.
Proof.
  intros Hin Hf. rewrite check_facts_sentinal.
  assert (H : exists e', check_facts g v2e true facts = Raise e').
  { induction facts as [|f0 rest IH]; [apply elem_of_nil in Hin; contradiction |].
    cbn [check_facts]. apply elem_of_cons in Hin.
    destruct (check_fact g v2e true f0) as [b|e0] eqn:E0; cbn [rbind]; [|eauto].
    destruct Hin as [-> | Hin]; [congruence |].
    rewrite check_facts_sentinal.
    destruct (IH Hin) as [e' ->]. cbn [rbind]. eauto. }
  destruct H as [e' ->]. cbn [rbind]. eauto.
Qed.

(** ** Rows and satisfying candidates *)

Lemma length_filter_le {A} (f : A -> bool) (l : list A) :
  length (List.filter f l) <= length l.
Proof.
  induction l as [|x l IH]; simpl; [lia |]. destruct (f x); simpl; lia.
Qed.

Lemma enumerate_rows_count g ds facts assignments :
  forall items,
    let t := snd (enumerate g ds facts items assignments) in
    length (rows t) <= length (List.filter (satisfies g ds facts) assignments)
    /\ (error t = None ->
        length (rows t)
        = length (List.filter (satisfies g ds facts) assignments)).
Proof.
  induction assignments as [|a rest IH]; intros items; cbn [enumerate].
  - simpl. split; [lia | reflexivity].
  - unfold try_assignment. cbn [List.filter].
    assert (Hs : satisfies g ds facts a
                 = match check_facts g (make_var_to_element ds a) true facts
                   with Ok true => true | _ => false end) by reflexivity.
    destruct (check_facts g (make_var_to_element ds a) true facts)
      as [[|]|e] eqn:Ec; rewrite Hs; clear Hs.
    + destruct (project g _ items []) as [items' [row|e]].
      * specialize (IH items').
        destruct (enumerate g ds facts items' rest) as [l t']. simpl in *.
        destruct IH as [IH1 IH2]. split; [lia |].
        intros He. rewrite (IH2 He). reflexivity.
      * simpl. split; [lia | discriminate].
    + apply IH.
    + simpl. split; [lia | discriminate].
Qed.

(** X5. Every row comes from a candidate that satisfies the facts: there are
    at most as many rows as satisfying candidates, hence at most
    [|domain| ^ k], and exactly as many when the run ends without an
    exception (no row is dropped, equal rows are not merged). *)
Theorem matching_rows_count g q q' facts :
  extract_atomic_facts_match q = (q', Ok facts) ->
  let ds := all_designations_of facts in
  let candidates := product (_get_domain g) (length ds) in
  let t := snd (matching_nodes g q) in
  length (rows t) <= length (List.filter (satisfies g ds facts) candidates)
  /\ length (rows t) <= length (_get_domain g) ^ length ds
  /\ (error t = None ->
      length (rows t)
      = length (List.filter (satisfies g ds facts) candidates)).
Proof.
  intros He ds candidates t. subst t. unfold matching_nodes. rewrite He.
  fold ds. fold candidates.
  pose proof (enumerate_rows_count g ds facts candidates
                (variable_list (return_variables q'))) as H.
  destruct (enumerate g ds facts _ candidates) as [l t]. simpl in *.
  destruct H as [H1 H2].
  split; [exact H1 |]. split; [|exact H2].
  etransitivity; [exact H1 |].
  etransitivity; [apply length_filter_le |].
  unfold candidates. rewrite length_product. reflexivity.
Qed.

Lemma matching_rows_count_witness :
  let ds := all_designations_of [ClassIs (Some "n") None;
                                 NodeHasDocument (Some "n") None] in
  let candidates := product (_get_domain sample_graph) (length ds) in
  let t := snd (matching_nodes sample_graph path_query) in
  length (rows t)
  <= length (List.filter
               (satisfies sample_graph ds
                  [ClassIs (Some "n") None; NodeHasDocument (Some "n") None])
               candidates)
  /\ length (rows t) <= length (_get_domain sample_graph) ^ length ds
  /\ (error t = None ->
      length (rows t)
      = length (List.filter
                  (satisfies sample_graph ds
                     [ClassIs (Some "n") None; NodeHasDocument (Some "n") None])
                  candidates)).
Proof.
  apply (matching_rows_count sample_graph path_query
           (fst (extract_atomic_facts_match path_query))).
  vm_compute. reflexivity.
Defined.

(** ** Variables that no pattern node declares *)

Lemma extract_keeps_return_variables q :
  return_variables (fst (extract_atomic_facts_match q)) = return_variables q.
Proof.
  unfold extract_atomic_facts_match, _recurse_MatchWhereReturnQuery.
  destruct (_recurse_MatchQuery _recurse_init (match_clause q))
    as [[mc st] [u|e]]; reflexivity.
Qed.

Lemma extract_where_member q q' facts c :
  extract_atomic_facts_match q = (q', Ok facts) ->
  where_clause q = Some c ->
  WhereClause c ∈ facts.
Proof.
  unfold extract_atomic_facts_match, _recurse_MatchWhereReturnQuery.
  destruct (_recurse_MatchQuery _recurse_init (match_clause q))
    as [[mc st] [u|e]]; simpl; [|discriminate].
  intros [= <- <-] ->. simpl. apply elem_of_app. right.
  apply list_elem_of_singleton. reflexivity.
Qed.

Lemma product_nonempty domain k :
  domain <> [] -> product domain k <> [].
Proof.
  intros Hd. induction k as [|k IH]; simpl; [discriminate |].
  destruct domain as [|x domain]; [contradiction |]. simpl.
  destruct (product (x :: domain) k); [contradiction | discriminate].
Qed.

Lemma enumerate_unbound_return g ds facts x rest assignments :
  x ∉ ds ->
  let t := snd (enumerate g ds facts (ReturnName x :: rest) assignments) in
  fst (enumerate g ds facts (ReturnName x :: rest) assignments)
  = ReturnName x :: rest
  /\ rows t = []
  /\ ((exists a, a ∈ assignments /\ satisfies g ds facts a = true) ->
      error t <> None).
Proof.
  intros Hx. induction assignments as [|a0 others IH]; cbn [enumerate].
  - simpl. split; [reflexivity |]. split; [reflexivity |].
    intros (a & Ha & _). apply elem_of_nil in Ha. contradiction.
  - unfold try_assignment.
    assert (Hs : satisfies g ds facts a0
                 = match check_facts g (make_var_to_element ds a0) true facts
                   with Ok true => true | _ => false end) by reflexivity.
    destruct (check_facts g (make_var_to_element ds a0) true facts)
      as [[|]|e] eqn:Ec.
    + cbn [project]. unfold var_lookup.
      rewrite (make_var_to_element_unbound ds a0 x Hx). cbn [rbind]. simpl.
      split; [reflexivity |]. split; [reflexivity | discriminate].
    + destruct IH as (IH0 & IH1 & IH2).
      split; [exact IH0 |]. split; [exact IH1 |].
      intros (a & Ha & Hsat). apply IH2.
      apply elem_of_cons in Ha. destruct Ha as [-> | Ha]; [congruence | eauto].
    + simpl. split; [reflexivity |]. split; [reflexivity | discriminate].
Qed.

(** X6. A return list that begins with a bare designation that no fact
    declares gives no row on any graph; as soon as one candidate satisfies
    the facts the run ends with an exception. *)
Theorem undeclared_return_variable_yields_nothing g q q' facts x rest :
  extract_atomic_facts_match q = (q', Ok facts) ->
  variable_list (return_variables q) = ReturnName x :: rest ->
  x ∉ all_designations_of facts ->
  let ds := all_designations_of facts in
  let t := snd (matching_nodes g q) in
  rows t = []
  /\ ((exists a, a ∈ product (_get_domain g) (length ds)
                 /\ satisfies g ds facts a = true) ->
      error t <> None).
Proof.
  intros He Hv Hx ds t. subst t. unfold matching_nodes.
  pose proof (extract_keeps_return_variables q) as Hr.
  rewrite He in *. simpl in Hr. rewrite Hr, Hv. fold ds.
  pose proof (enumerate_unbound_return g ds facts x rest
                (product (_get_domain g) (length ds)) Hx) as H.
  destruct (enumerate g ds facts _ _) as [l t]. simpl in *.
  destruct H as (_ & H1 & H2). split; assumption.
Qed.

Lemma undeclared_return_variable_yields_nothing_witness :
  let q := match_query [pattern_node (Some "n") None []] None [ReturnName "m"] in
  let facts := [ClassIs (Some "n") None; NodeHasDocument (Some "n") None] in
  let ds := all_designations_of facts in
  let t := snd (matching_nodes sample_graph q) in
  rows t = []
  /\ ((exists a, a ∈ product (_get_domain sample_graph) (length ds)
                 /\ satisfies sample_graph ds facts a = true) ->
      error t <> None).
Proof.
  apply (undeclared_return_variable_yields_nothing sample_graph
           (match_query [pattern_node (Some "n") None []] None [ReturnName "m"])
           (match_query [pattern_node (Some "n") None []] None [ReturnName "m"])
           [ClassIs (Some "n") None; NodeHasDocument (Some "n") None] "m" []).
  - vm_compute. reflexivity.
  - reflexivity.
  - rewrite list_elem_of_In. vm_compute. intros [H | []]. discriminate.
Defined.

(** X7. A filter constraint on a variable that no fact declares ends the run
    at the first candidate: on a graph with at least one node the query
    yields no row and an exception. *)
Theorem undeclared_filter_variable_raises g q q' facts x keypath lit :
  extract_atomic_facts_match q = (q', Ok facts) ->
  where_clause q = Some (Constraint (x :: keypath) lit) ->
  x ∉ all_designations_of facts ->
  _get_domain g <> [] ->
  rows (snd (matching_nodes g q)) = []
  /\ error (snd (matching_nodes g q)) <> None.
Proof.
  intros He Hw Hx Hd. unfold matching_nodes. rewrite He.
  set (ds := all_designations_of facts).
  pose proof (product_nonempty (_get_domain g) (length ds) Hd) as Hne.
  destruct (product (_get_domain g) (length ds)) as [|a others];
    [contradiction |].
  cbn [enumerate]. unfold try_assignment.
  destruct (check_facts_raises_member g (make_var_to_element ds a) facts
              (WhereClause (Constraint (x :: keypath) lit))
              (KeyError (Some x)) true) as [e' ->].
  - eapply extract_where_member; eassumption.
  - cbn [check_fact _eval_boolean _eval_constraint]. unfold var_lookup.
    rewrite (make_var_to_element_unbound ds a x Hx). reflexivity.
  - simpl. split; [reflexivity | discriminate].
Qed.

Lemma undeclared_filter_variable_raises_witness :
  let q := match_query [pattern_node (Some "n") None []]
             (Some (Constraint ["m"; "name"] (LitStr "Bo"))) [ReturnName "n"] in
  rows (snd (matching_nodes sample_graph q)) = []
  /\ error (snd (matching_nodes sample_graph q)) <> None.
Proof.
  apply (undeclared_filter_variable_raises sample_graph
           (match_query [pattern_node (Some "n") None []]
              (Some (Constraint ["m"; "name"] (LitStr "Bo"))) [ReturnName "n"])
           (match_query [pattern_node (Some "n") None []]
              (Some (Constraint ["m"; "name"] (LitStr "Bo"))) [ReturnName "n"])
           [ClassIs (Some "n") None; NodeHasDocument (Some "n") None;
            WhereClause (Constraint ["m"; "name"] (LitStr "Bo"))]
           "m" ["name"] (LitStr "Bo")).
  - vm_compute. reflexivity.
  - reflexivity.
  - rewrite list_elem_of_In. vm_compute. intros [H | []]. discriminate.
  - vm_compute. discriminate.
Defined.

(** ** Key-paths that resolve *)

Lemma resolving_keypath_loop node0 keypath :
  forall out,
    keypath_fails out keypath = false ->
    _node_attribute_value_loop node0 out keypath
    = _attribute_value_from_node_keypath out keypath.
Proof.
  induction keypath as [|key rest IH]; intros out Hf; simpl in *.
  - reflexivity.
  - destruct out as [| z | s | items]; try discriminate. simpl.
    destruct (dict_lookup items key) as [v|]; [apply IH, Hf | discriminate].
Qed.

(** X8. When every step of a key-path finds its key, the projection of a
    return item and the resolution of a filter constraint give the same
    value, and neither raises. *)
Theorem return_and_filter_agree_on_resolving_keypath node0 keypath :
  keypath_fails node0 keypath = false ->
  _node_attribute_value node0 keypath
  = _attribute_value_from_node_keypath node0 keypath
  /\ exists v, _node_attribute_value node0 keypath = Ok v.
Proof.
  intros Hf. unfold _node_attribute_value.
  rewrite (resolving_keypath_loop node0 keypath node0 Hf).
  split; [reflexivity | apply keypath_never_raises].
Qed.

Lemma return_and_filter_agree_on_resolving_keypath_witness :
  _node_attribute_value
    (VDict [("bar", VDict [("qux", VStr "baz")])]) ["bar"; "qux"]
  = _attribute_value_from_node_keypath
      (VDict [("bar", VDict [("qux", VStr "baz")])]) ["bar"; "qux"]
  /\ exists v,
       _node_attribute_value
         (VDict [("bar", VDict [("qux", VStr "baz")])]) ["bar"; "qux"] = Ok v.
Proof.
  apply (return_and_filter_agree_on_resolving_keypath
           (VDict [("bar", VDict [("qux", VStr "baz")])]) ["bar"; "qux"]).
  reflexivity.
Defined.

Lemma _node_attribute_value_loop_error node0 keypath :
  forall out e,
    _node_attribute_value_loop node0 out keypath = Raise e ->
    exists a, In a keypath /\ e = NonExistentAttribute a node0.
Proof.
  induction keypath as [|key rest IH]; intros out e; simpl.
  - discriminate.
  - destruct (py_get out key) as [out'|e0].
    + intros H. destruct (IH out' e H) as (a & Ha & He). eauto.
    + intros [= <-]. eauto.
Qed.

(** X9. The projection of a key-path on a node raises one kind of error only:
    it names the node itself and a step of the path, and that step is
    never the first one, whose [get] is applied to the node's own
    dictionary. *)
Theorem projection_error_names_a_later_step (items : dict) keypath e :
  _node_attribute_value (VDict items) keypath = Raise e ->
  exists a, In a (tl keypath) /\ e = NonExistentAttribute a (VDict items).
Proof.
  unfold _node_attribute_value. destruct keypath as [|key rest]; simpl.
  - discriminate.
  - destruct (dict_lookup items key) as [v|]; apply _node_attribute_value_loop_error.
Qed.

Lemma projection_error_names_a_later_step_witness :
  exists a,
    In a (tl ["address"; "city"])
    /\ NonExistentAttribute "city" (VDict [("name", VStr "Ann")])
       = NonExistentAttribute a (VDict [("name", VStr "Ann")]).
Proof.
  apply (projection_error_names_a_later_step [("name", VStr "Ann")]
           ["address"; "city"]
           (NonExistentAttribute "city" (VDict [("name", VStr "Ann")]))).
  reflexivity.
Defined.

(** ** Filters over bound variables *)

Lemma eval_boolean_of_bound_clause g (v2e : gmap string string) c :
  clause_bound g v2e c = true ->
  exists b, _eval_boolean g v2e c = Ok b.
Proof.
  induction c as [l IHl r IHr | a IHa | keypath lit]; cbn [clause_bound];
    intros Hb.
  - apply andb_true_iff in Hb. destruct Hb as [Hl Hr].
    destruct (IHl Hl) as [bl El]. destruct (IHr Hr) as [br Er].
    cbn [_eval_boolean]. rewrite El. cbn [rbind].
    destruct bl; eauto.
  - destruct (IHa Hb) as [b Eb]. cbn [_eval_boolean]. rewrite Eb.
    cbn [rbind]. eauto.
  - destruct keypath as [|x ks]; [discriminate |].
    cbn [_eval_boolean _eval_constraint]. unfold var_lookup.
    destruct (v2e !! x) as [e|]; [|discriminate]. cbn [rbind].
    unfold _get_node.
    destruct (assoc (node g) e) as [attrs|]; [|discriminate]. cbn [rbind].
    destruct (keypath_never_raises (VDict attrs) ks) as [v ->]. cbn [rbind].
    eauto.
Qed.

(** X10. A filter clause whose constraints all start with a variable bound to
    a node of the graph evaluates to a boolean: no constraint raises,
    whatever its key-path finds. *)
Theorem filter_over_bound_variables_never_raises g (v2e : gmap string string) c :
  clause_bound g v2e c = true ->
  exists b, _eval_boolean g v2e c = Ok b.
Proof. apply eval_boolean_of_bound_clause. Qed.

Lemma filter_over_bound_variables_never_raises_witness :
  exists b,
    _eval_boolean sample_graph {[ "n" := "b" ]}
      (Or (Not (Constraint ["n"; "name"; "first"] (LitStr "Bo")))
          (Constraint ["n"; "age"] (LitInt 3))) = Ok b.
Proof.
  apply (filter_over_bound_variables_never_raises sample_graph
           {[ "n" := "b" ]}
           (Or (Not (Constraint ["n"; "name"; "first"] (LitStr "Bo")))
               (Constraint ["n"; "age"] (LitInt 3)))).
  vm_compute. reflexivity.
Defined.

(** ** What the extraction produces *)

Lemma append_facts_nil st : append_facts st [] = st.
Proof.
  destruct st. unfold append_facts. simpl. rewrite app_nil_r. reflexivity.
Qed.

Lemma append_facts_app st a b :
  append_facts (append_facts st a) b = append_facts st (a ++ b).
Proof. unfold append_facts. simpl. rewrite app_assoc. reflexivity. Qed.

Lemma _recurse_WhereClause_facts st w :
  _recurse_WhereClause st w = append_facts st (where_facts w).
Proof. destruct w; simpl; [reflexivity | symmetry; apply append_facts_nil]. Qed.

Lemma _recurse_Node_success st n n' st' :
  _recurse_Node st n = (n', st', Ok tt) ->
  designation n' <> None /\ st' = append_facts st (node_facts n').
Proof.
  unfold _recurse_Node. destruct (designation n) eqn:E.
  - intros [= <- <-]. split; [congruence | reflexivity].
  - simpl. destruct (next_anonymous_variable n); [|discriminate].
    intros [= <- <-]. split; [discriminate | reflexivity].
Qed.

Lemma _recurse_Node_failure st n n' st' e :
  _recurse_Node st n = (n', st', Raise e) ->
  e = AttributeError
  /\ designation n = None /\ next_anonymous_variable n = None.
Proof.
  unfold _recurse_Node. destruct (designation n) eqn:E; [discriminate |].
  simpl. destruct (next_anonymous_variable n); [discriminate |].
  intros [= _ _ <-]. auto.
Qed.

Lemma _recurse_literal_list_success l :
  forall st l' st',
    _recurse_literal_list st l = (l', st', Ok tt) ->
    Forall (fun n => designation n <> None) l'
    /\ st' = append_facts st (flat_map node_facts l').
Proof.
  induction l as [|n rest IH]; intros st l' st'; cbn [_recurse_literal_list].
  - intros [= <- <-]. split; [constructor | symmetry; apply append_facts_nil].
  - destruct (_recurse_Node st n) as [[n1 st1] [u|e]] eqn:En; [|discriminate].
    destruct u. apply _recurse_Node_success in En. destruct En as [Hn ->].
    destruct (_recurse_literal_list _ rest) as [[rest1 st2] r] eqn:El.
    intros [= <- <- ->]. apply IH in El. destruct El as [Hrest ->].
    split; [constructor; assumption |].
    simpl. rewrite append_facts_app. reflexivity.
Qed.

Lemma _recurse_literal_list_failure l :
  forall st l' st' e,
    _recurse_literal_list st l = (l', st', Raise e) ->
    e = AttributeError
    /\ exists n, In n l /\ designation n = None
                 /\ next_anonymous_variable n = None.
Proof.
  induction l as [|n rest IH]; intros st l' st' e; cbn [_recurse_literal_list].
  - discriminate.
  - destruct (_recurse_Node st n) as [[n1 st1] [u|e1]] eqn:En.
    + destruct (_recurse_literal_list st1 rest) as [[rest1 st2] r] eqn:El.
      intros [= <- <- ->]. apply IH in El. destruct El as [-> (m & Hm & H)].
      split; [reflexivity |]. exists m. split; [right; exact Hm | exact H].
    + intros [= <- <- <-]. apply _recurse_Node_failure in En.
      destruct En as [-> H]. split; [reflexivity |].
      exists n. split; [left; reflexivity | exact H].
Qed.

Lemma extract_success q q' facts :
  extract_atomic_facts_match q = (q', Ok facts) ->
  all_designated q' /\ facts = facts_of q'.
Proof.
  unfold extract_atomic_facts_match, _recurse_MatchWhereReturnQuery,
    _recurse_MatchQuery, _recurse_Literals, finish_extract,
    all_designated, facts_of, pattern_nodes.
  destruct q as [[[ls mw]|] wc rv]; simpl.
  - destruct ls as [[l]|]; simpl.
    + destruct (_recurse_literal_list _recurse_init l) as [[l1 st1] [u|e]] eqn:El;
        simpl; [|discriminate].
      destruct u. apply _recurse_literal_list_success in El.
      destruct El as [Hall ->].
      intros [= <- <-]. simpl. split; [exact Hall |].
      rewrite !_recurse_WhereClause_facts. simpl.
      rewrite <- !app_assoc. reflexivity.
    + intros [= <- <-]. simpl. split; [exact I |].
      rewrite !_recurse_WhereClause_facts. reflexivity.
  - intros [= <- <-]. simpl. split; [exact I |].
    rewrite !_recurse_WhereClause_facts. reflexivity.
Qed.

(** X11. For a match query whose pattern nodes all have a designation the
    extraction leaves the AST as it is and returns, for each node in turn,
    its class fact, its edge facts and its document fact, then the filter
    of the match clause and the filter of the query; the designation of
    every pattern node is in the variable domain of these facts. *)
Theorem extraction_of_designated_pattern q :
  all_designated q ->
  extract_atomic_facts_match q = (q, Ok (facts_of q))
  /\ forall n d, In n (pattern_nodes q) -> designation n = Some d ->
                 d ∈ all_designations_of (facts_of q).
Proof.
  intros Hd. split.
  - destruct (extract_designated q Hd) as [facts He].
    destruct (extract_success q q facts He) as [_ ->]. exact He.
  - intros n d Hn Hdes. apply elem_of_all_designations.
    exists (ClassIs (designation n) (node_class n)). split; [|exact Hdes].
    unfold facts_of. apply elem_of_app. left.
    apply list_elem_of_In, in_flat_map. exists n. split; [exact Hn |].
    left. reflexivity.
Qed.

Lemma extraction_of_designated_pattern_witness :
  extract_atomic_facts_match unlabeled_edge_query
  = (unlabeled_edge_query, Ok (facts_of unlabeled_edge_query))
  /\ forall n d, In n (pattern_nodes unlabeled_edge_query) ->
                 designation n = Some d ->
                 d ∈ all_designations_of (facts_of unlabeled_edge_query).
Proof.
  apply (extraction_of_designated_pattern unlabeled_edge_query).
  unfold all_designated. simpl. repeat constructor; discriminate.
Defined.

(** X12. After an extraction that succeeds every pattern node has a
    designation, and extracting again from the AST the first call left
    gives the same facts and changes nothing. *)
Theorem extraction_is_idempotent q q' facts :
  extract_atomic_facts_match q = (q', Ok facts) ->
  all_designated q'
  /\ extract_atomic_facts_match q' = (q', Ok facts).
Proof.
  intros He. destruct (extract_success q q' facts He) as [Hd ->].
  split; [exact Hd |].
  destruct (extract_designated q' Hd) as [facts' He'].
  destruct (extract_success q' q' facts' He') as [_ ->]. exact He'.
Qed.

Lemma extraction_is_idempotent_witness :
  let q := match_query [anonymous_node "A" (Some 0%Z)] None [] in
  all_designated (fst (extract_atomic_facts_match q))
  /\ extract_atomic_facts_match (fst (extract_atomic_facts_match q))
     = (fst (extract_atomic_facts_match q),
        Ok [ClassIs (Some "_v0") (Some "A"); NodeHasDocument (Some "_v0") None]).
Proof.
  apply (extraction_is_idempotent
           (match_query [anonymous_node "A" (Some 0%Z)] None [])).
  vm_compute. reflexivity.
Defined.

(** X13. The extraction of a match query fails in one way only: with
    [AttributeError], at a pattern node that has neither a designation nor
    an attribute [next_anonymous_variable]. *)
Theorem extraction_fails_only_on_anonymous_node q q' e :
  extract_atomic_facts_match q = (q', Raise e) ->
  e = AttributeError
  /\ exists n, In n (pattern_nodes q) /\ designation n = None
               /\ next_anonymous_variable n = None.
Proof.
  unfold extract_atomic_facts_match, _recurse_MatchWhereReturnQuery,
    _recurse_MatchQuery, _recurse_Literals, finish_extract, pattern_nodes.
  destruct q as [[[ls mw]|] wc rv]; simpl; [|discriminate].
  destruct ls as [[l]|]; simpl; [|discriminate].
  destruct (_recurse_literal_list _recurse_init l) as [[l1 st1] [u|e1]] eqn:El;
    simpl; [discriminate |].
  intros [= _ <-]. eapply _recurse_literal_list_failure, El.
Qed.

Lemma extraction_fails_only_on_anonymous_node_witness :
  AttributeError = AttributeError
  /\ exists n,
       In n (pattern_nodes (match_query [anonymous_node "A" None] None []))
       /\ designation n = None /\ next_anonymous_variable n = None.
Proof.
  apply (extraction_fails_only_on_anonymous_node
           (match_query [anonymous_node "A" None] None [])
           (fst (extract_atomic_facts_match
                   (match_query [anonymous_node "A" None] None [])))).
  vm_compute. reflexivity.
Defined.

(** ** A pattern of one node *)

Lemma check_fact_ClassIs_any g (v2e : gmap string string) d c e attrs s :
  v2e !! d = Some e ->
  assoc (node g) e = Some attrs ->
  check_fact g v2e s (ClassIs (Some d) c)
  = Ok (if node_has_class g c e then s else false).
Proof.
  intros Hv Hn. destruct c as [name|].
  - rewrite (check_fact_ClassIs g v2e d name e attrs s Hv Hn).
    unfold node_has_class. rewrite Hn. reflexivity.
  - unfold check_fact. rewrite (var_lookup_bound _ _ _ Hv). cbn [rbind].
    rewrite (_get_node_present _ _ _ Hn). cbn [rbind].
    unfold _node_class, py_get.
    destruct (dict_lookup attrs "class"); reflexivity.
Qed.

Lemma singleton_of_NoDup {A} (l : list A) (d : A) :
  NoDup l -> (forall x, x ∈ l <-> x = d) -> l = [d].
Proof.
  intros Hnd Hl. destruct l as [|a [|b l]].
  - exfalso. eapply elem_of_nil, Hl. reflexivity.
  - f_equal. apply Hl. left.
  - exfalso.
    assert (a = d) by (apply Hl; left).
    assert (b = d) by (apply Hl; right; left).
    subst. inversion Hnd as [|? ? Hnotin _]; subst. apply Hnotin. left.
Qed.

Lemma product_one domain : product domain 1 = map (fun x => [x]) domain.
Proof.
  simpl. induction domain as [|x domain IH]; simpl; [reflexivity |].
  rewrite IH. reflexivity.
Qed.

Lemma single_binding (d e : string) :
  make_var_to_element [d] [e] !! d = Some e.
Proof.
  apply (make_var_to_element_lookup [d] [e] 0 d e); try reflexivity.
  apply NoDup_singleton.
Qed.

Lemma enumerate_single_node g d c doc rest l :
  Forall (fun f => exists dd dc, f = NodeHasDocument dd dc) doc ->
  (forall e, e ∈ l -> e ∈ _get_domain g) ->
  enumerate g [d] (ClassIs (Some d) c :: doc) (ReturnName d :: rest)
    (map (fun x => [x]) l)
  = (ReturnName d :: rest,
     {| rows := map (fun e => [VStr e]) (List.filter (node_has_class g c) l);
        error := None |}).
Proof.
  intros Hall Hl.
  assert (Hdoc : forall v2e s, check_facts g v2e s doc = Ok s).
  { clear - Hall. induction Hall as [|f doc' (dd & dc & ->) _ IH];
      intros v2e s; [reflexivity | apply IH]. }
  induction l as [|e l IH]; [reflexivity |].
  cbn [map enumerate List.filter]. unfold try_assignment.
  destruct (assoc_of_key (node g) e) as [attrs Hattrs]; [apply Hl; left |].
  cbn [check_facts].
  rewrite (check_fact_ClassIs_any g _ d c e attrs true (single_binding d e)
             Hattrs).
  cbn [rbind]. rewrite Hdoc.
  assert (IH' := IH (fun e' He' => Hl e' (list_elem_of_further _ _ _ He'))).
  destruct (node_has_class g c e).
  - rewrite (project_stops_at_name g _ d e rest [] (single_binding d e)).
    rewrite IH'. reflexivity.
  - exact IH'.
Qed.

(** X14. A pattern of one node with a designation, no edge and no filter,
    returned by its designation: the rows are the nodes of the graph that
    pass the class test, one row each, in the order of the node domain,
    and nothing is raised. The inline conditions of the node play no
    part. *)
Theorem single_node_pattern_lists_the_class g d c conds nav rest :
  snd (matching_nodes g
         (single_node_query
            {| designation := Some d; node_class := c;
               attribute_conditions := conds; connecting_edges := [];
               next_anonymous_variable := nav |}
            (ReturnName d :: rest)))
  = {| rows := map (fun e => [VStr e])
                 (List.filter (node_has_class g c) (_get_domain g));
       error := None |}.
Proof.
  unfold matching_nodes, single_node_query, match_query.
  set (doc := match conds with
              | Some conditions =>
                  [NodeHasDocument (Some d)
                     (if (0 <? length conditions)%nat then Some conditions
                      else None)]
              | None => []
              end).
  assert (He : forall rv,
             extract_atomic_facts_match
               {| match_clause :=
                    Some {| literals :=
                              Some {| literal_list :=
                                [ {| designation := Some d; node_class := c;
                                     attribute_conditions := conds;
                                     connecting_edges := [];
                                     next_anonymous_variable := nav |} ] |};
                            mq_where_clause := None |};
                  where_clause := None;
                  return_variables := rv |}
             = ({| match_clause :=
                    Some {| literals :=
                              Some {| literal_list :=
                                [ {| designation := Some d; node_class := c;
                                     attribute_conditions := conds;
                                     connecting_edges := [];
                                     next_anonymous_variable := nav |} ] |};
                            mq_where_clause := None |};
                  where_clause := None;
                  return_variables := rv |},
                Ok (ClassIs (Some d) c :: doc))).
  { intros rv. unfold extract_atomic_facts_match. simpl.
    unfold node_facts. simpl. subst doc. destruct conds; reflexivity. }
  rewrite He. clear He.
  assert (Hdoc : Forall (fun f => exists dd dc, f = NodeHasDocument dd dc) doc).
  { subst doc. destruct conds; repeat constructor; eauto. }
  assert (Hds : all_designations_of (ClassIs (Some d) c :: doc) = [d]).
  { apply singleton_of_NoDup; [apply all_designations_NoDup |].
    intros x. rewrite elem_of_all_designations. split.
    - intros (fact & Hin & Hf). apply elem_of_cons in Hin.
      destruct Hin as [-> | Hin]; [simpl in Hf; congruence |].
      subst doc. destruct conds; [|apply elem_of_nil in Hin; contradiction].
      apply list_elem_of_singleton in Hin. subst fact. simpl in Hf. congruence.
    - intros ->. exists (ClassIs (Some d) c). split; [left | reflexivity]. }
  rewrite Hds. cbn [length]. rewrite product_one. cbn [return_variables variable_list].
  rewrite (enumerate_single_node g d c doc rest (_get_domain g) Hdoc)
    by (intros e He; exact He).
  reflexivity.
Qed.

(** ** Dictionaries under a new set of keys *)

Lemma assoc_cons {A} (x : string * A) (l : list (string * A)) k :
  assoc (x :: l) k = if String.eqb (fst x) k then Some (snd x) else assoc l k.
Proof. destruct x. reflexivity. Qed.

Lemma assoc_app {A} (l1 l2 : list (string * A)) k :
  assoc (l1 ++ l2) k
  = match assoc l1 k with Some v => Some v | None => assoc l2 k end.
Proof.
  induction l1 as [|[k' v] l1 IH]; simpl; [reflexivity |].
  destruct (String.eqb k' k); [reflexivity | exact IH].
Qed.

Lemma assoc_app_fresh {A} (l : list (string * A)) k v :
  assoc l k = None -> assoc (l ++ [(k, v)]) k = Some v.
Proof.
  intros H. rewrite assoc_app, H, assoc_cons. cbn [fst snd].
  rewrite String.eqb_refl. reflexivity.
Qed.

Lemma assoc_insert_by_rank {A} (rank : string -> nat) (x : string * A) l k :
  assoc (insert_by_rank rank x l) k
  = if String.eqb (fst x) k then Some (snd x) else assoc l k.
Proof.
  induction l as [|y l IH]; cbn [insert_by_rank].
  - rewrite assoc_cons. reflexivity.
  - destruct (rank (fst x) <=? rank (fst y))%nat eqn:E.
    + rewrite assoc_cons. reflexivity.
    + rewrite !assoc_cons, IH.
      destruct (String.eqb (fst y) k) eqn:Ey; [|reflexivity].
      destruct (String.eqb (fst x) k) eqn:Ex; [|reflexivity].
      apply String.eqb_eq in Ey. apply String.eqb_eq in Ex.
      rewrite Ex, Ey in E. apply Nat.leb_gt in E. lia.
Qed.

(** Looking a key up does not depend on the order of iteration. *)
Lemma assoc_dict_iteration {A} rank (l : list (string * A)) k :
  assoc (dict_iteration rank l) k = assoc l k.
Proof.
  unfold dict_iteration.
  generalize (rank (map fst l)). intros r.
  induction l as [|x l IH]; [reflexivity |].
  cbn [foldr]. rewrite assoc_insert_by_rank, assoc_cons, IH. reflexivity.
Qed.

Lemma insert_by_rank_Permutation {A} (rank : string -> nat) (x : string * A) l :
  insert_by_rank rank x l ≡ₚ x :: l.
Proof.
  induction l as [|y l IH]; cbn [insert_by_rank]; [reflexivity |].
  destruct (rank (fst x) <=? rank (fst y))%nat; [reflexivity |].
  rewrite IH. apply Permutation_swap.
Qed.

(** The entries are the same, whatever the order. *)
Lemma dict_iteration_Permutation {A} rank (l : list (string * A)) :
  dict_iteration rank l ≡ₚ l.
Proof.
  unfold dict_iteration.
  generalize (rank (map fst l)). intros r.
  induction l as [|x l IH]; [reflexivity |].
  cbn [foldr]. rewrite insert_by_rank_Permutation, IH. reflexivity.
Qed.

Lemma assoc_map_update {A} (f : A -> A) (l : list (string * A)) n k :
  k <> n ->
  assoc (map (fun kv => if String.eqb (fst kv) n then (fst kv, f (snd kv))
                        else kv) l) k
  = assoc l k.
Proof.
  intros Hne. induction l as [|[k' v] l IH]; [reflexivity |].
  cbn [map]. cbn [fst snd]. destruct (String.eqb k' n) eqn:E.
  - rewrite !assoc_cons. cbn [fst snd].
    apply String.eqb_eq in E. subst k'.
    assert (En : String.eqb n k = false) by (apply String.eqb_neq; congruence).
    rewrite En. exact IH.
  - rewrite !assoc_cons. cbn [fst snd]. rewrite IH. reflexivity.
Qed.

Lemma key_of_assoc {A} (l : list (string * A)) k v :
  assoc l k = Some v -> k ∈ map fst l.
Proof.
  induction l as [|[k' v'] l IH]; simpl; [discriminate |].
  destruct (String.eqb k' k) eqn:E.
  - intros _. apply String.eqb_eq in E. subst. left.
  - intros H. right. apply IH, H.
Qed.

(** [add_node] keeps every node name and the attributes of every node but
    the one it is called for, and leaves the edges alone. *)
Lemma add_node_keeps rank g n attr :
  (forall e, e ∈ _get_domain g -> e ∈ _get_domain (add_node rank g n attr))
  /\ n ∈ _get_domain (add_node rank g n attr)
  /\ (forall e, e <> n ->
        assoc (node (add_node rank g n attr)) e = assoc (node g) e)
  /\ edge (add_node rank g n attr) = edge g.
Proof.
  unfold add_node, _get_domain.
  destruct (assoc (node g) n) as [old|] eqn:En; cbn [node edge].
  - assert (Hkeys : map fst
                      (map (fun kv : string * dict =>
                              if String.eqb (fst kv) n
                              then (fst kv, dict_update old attr) else kv)
                         (node g))
                    = map fst (node g)).
    { rewrite map_map. apply map_ext. intros [k v]. cbn [fst].
      destruct (String.eqb k n); reflexivity. }
    rewrite Hkeys. split; [auto |]. split; [eapply key_of_assoc, En |].
    split; [|reflexivity].
    intros e He.
    exact (assoc_map_update (fun _ => dict_update old attr) (node g) n e He).
  - assert (Hp : map fst (dict_iteration rank (node g ++ [(n, attr)]))
                 ≡ₚ map fst (node g) ++ [n]).
    { rewrite (Permutation_map fst (dict_iteration_Permutation rank _)).
      rewrite map_app. reflexivity. }
    split; [|split; [|split; [|reflexivity]]].
    + intros e He. rewrite Hp. apply elem_of_app. left. exact He.
    + rewrite Hp. apply elem_of_app. right. left.
    + intros e He. rewrite assoc_dict_iteration, assoc_app.
      destruct (assoc (node g) e); [reflexivity |].
      rewrite assoc_cons. cbn [fst].
      assert (E : String.eqb n e = false) by (apply String.eqb_neq; congruence).
      rewrite E. reflexivity.
Qed.

(** Between two nodes that the graph holds, [add_edge] leaves the nodes
    as they are. *)
Lemma add_edge_between_nodes rank g u v attr :
  u ∈ _get_domain g -> v ∈ _get_domain g ->
  node (add_edge rank g u v attr) = node g.
Proof.
  intros Hu Hv. unfold add_edge.
  destruct (assoc_of_key (node g) u Hu) as [au ->].
  destruct (assoc_of_key (node g) v Hv) as [av ->]. reflexivity.
Qed.

(** ** Created nodes *)

Lemma dict_lookup_dict_set_eq (items : dict) k v :
  dict_lookup (dict_set items k v) k = Some v.
Proof.
  induction items as [|[k' v'] items IH]; simpl.
  - rewrite String.eqb_refl. reflexivity.
  - destruct (String.eqb k' k) eqn:E; simpl; rewrite E; [reflexivity | exact IH].
Qed.

Lemma dict_lookup_dict_set_ne (items : dict) k v k0 :
  k <> k0 -> dict_lookup (dict_set items k v) k0 = dict_lookup items k0.
Proof.
  intros Hne. induction items as [|[k' v'] items IH]; simpl.
  - apply String.eqb_neq in Hne. rewrite Hne. reflexivity.
  - destruct (String.eqb k' k) eqn:E; simpl.
    + apply String.eqb_eq in E. subst k'.
      apply String.eqb_neq in Hne. rewrite Hne. reflexivity.
    + rewrite IH. reflexivity.
Qed.

Lemma dict_lookup_dict_remove_ne (items : dict) k k0 :
  k <> k0 -> dict_lookup (dict_remove items k) k0 = dict_lookup items k0.
Proof.
  intros Hne. induction items as [|[k' v'] items IH]; simpl; [reflexivity |].
  destruct (String.eqb k' k) eqn:E; simpl.
  - apply String.eqb_eq in E. subst k'.
    apply String.eqb_neq in Hne. rewrite Hne. exact IH.
  - rewrite IH. reflexivity.
Qed.

Lemma dict_lookup_dict_remove_eq (items : dict) k :
  dict_lookup (dict_remove items k) k = None.
Proof.
  induction items as [|[k' v'] items IH]; simpl; [reflexivity |].
  destruct (String.eqb k' k) eqn:E; simpl; [exact IH |].
  rewrite E. exact IH.
Qed.

(** The attribute dictionary that [add_node] stores for conditions
    without the key [attr_dict]: the conditions and the class. *)
Lemma stored_attributes c conds attrs :
  dict_lookup conds "attr_dict" = None ->
  add_node_attr_dict (dict_set conds "class" (label_val c)) = Ok attrs ->
  dict_lookup attrs "class" = Some (label_val c)
  /\ forall k, k <> "class" -> dict_lookup attrs k = dict_lookup conds k.
Proof.
  intros Hno. unfold add_node_attr_dict.
  destruct (has_key _ "self" || has_key _ "n"); [discriminate |].
  rewrite dict_lookup_dict_set_ne by discriminate. rewrite Hno.
  intros [= <-]. split.
  - rewrite dict_lookup_dict_remove_ne by discriminate.
    apply dict_lookup_dict_set_eq.
  - intros k Hk. destruct (decide (k = "attr_dict")) as [-> | Hk'].
    + rewrite dict_lookup_dict_remove_eq. symmetry. exact Hno.
    + rewrite dict_lookup_dict_remove_ne by congruence.
      apply dict_lookup_dict_set_ne. congruence.
Qed.

(** X15. A call of [_create_node] that succeeds, with conditions that
    have no key [attr_dict] and under an identifier the graph does not hold
    yet, adds that identifier to the node domain, wherever the hashing puts
    it. Fetching the node gives attributes where [class] is the class of
    the call and every other key is as in the conditions; its class lookup
    gives that class and the class fact of that class accepts it. The
    attributes of the other nodes and the conditions of the literal are
    as before. *)
Theorem created_node_has_its_class (w w' : world) (c : option string)
    (conds conds' : dict) (new_id : string) :
  Create._create_node w c conds = (w', conds', Ok new_id) ->
  dict_lookup conds "attr_dict" = None ->
  assoc (node (graph w)) new_id = None ->
  _get_domain (graph w') ≡ₚ new_id :: _get_domain (graph w)
  /\ (exists attrs,
        _get_node (graph w') new_id = Ok (VDict attrs)
        /\ dict_lookup attrs "class" = Some (label_val c)
        /\ (forall k, k <> "class" -> dict_lookup attrs k = dict_lookup conds k)
        /\ _node_class (VDict attrs) = Ok (label_val c))
  /\ (forall e, e <> new_id ->
        assoc (node (graph w')) e = assoc (node (graph w)) e)
  /\ (forall (v2e : gmap string string) d s,
        v2e !! d = Some new_id ->
        check_fact (graph w') v2e s (ClassIs (Some d) c) = Ok s)
  /\ conds' = conds.
Proof.
  intros Hc Hno Hfresh.
  assert (Hconds : conds' = conds).
  { unfold Create._create_node in Hc.
    destruct (Create.collides_with_create_node conds); [discriminate |].
    cbn [unique_id] in Hc. injection Hc as _ <- _.
    unfold Create.conditions_after. rewrite Hno. reflexivity. }
  apply _create_node_success in Hc.
  destruct Hc as (attrs & Hattrs & _ & -> & ->). cbn [graph].
  set (id := "_id_" +:+ random_hash w (drawn w)) in *.
  destruct (stored_attributes c conds attrs Hno Hattrs) as [Hclass Hother].
  assert (Hnode : assoc (node (add_node (key_rank w) (graph w) id attrs)) id
                  = Some attrs).
  { unfold add_node. rewrite Hfresh. cbn [node].
    rewrite assoc_dict_iteration. apply assoc_app_fresh, Hfresh. }
  split.
  { unfold add_node, _get_domain. rewrite Hfresh. cbn [node].
    rewrite (Permutation_map fst (dict_iteration_Permutation _ _)).
    rewrite map_app. cbn [map fst]. symmetry. apply Permutation_cons_append. }
  split.
  { exists attrs. split; [apply _get_node_present, Hnode |].
    split; [exact Hclass |]. split; [exact Hother |].
    unfold _node_class, py_get. rewrite Hclass. reflexivity. }
  split.
  { intros e He.
    destruct (add_node_keeps (key_rank w) (graph w) id attrs)
      as (_ & _ & H & _).
    apply H, He. }
  split; [|exact Hconds].
  intros v2e d s Hv.
  rewrite (check_fact_ClassIs_any _ v2e d c id attrs s Hv Hnode).
  unfold node_has_class. destruct c as [name|]; [|reflexivity].
  rewrite Hnode, Hclass. simpl. rewrite String.eqb_refl. reflexivity.
Qed.

Lemma created_node_has_its_class_witness :
  let out := Create._create_node sample_world (Some "Person")
               [("name", VStr "Ann")] in
  _get_domain (graph (fst (fst out))) ≡ₚ "_id_0" :: _get_domain (graph sample_world)
  /\ (exists attrs,
        _get_node (graph (fst (fst out))) "_id_0" = Ok (VDict attrs)
        /\ dict_lookup attrs "class" = Some (VStr "Person")
        /\ (forall k, k <> "class" ->
              dict_lookup attrs k = dict_lookup [("name", VStr "Ann")] k)
        /\ _node_class (VDict attrs) = Ok (VStr "Person")).
Proof.
  pose proof (created_node_has_its_class sample_world
                (fst (fst (Create._create_node sample_world (Some "Person")
                             [("name", VStr "Ann")])))
                (Some "Person") [("name", VStr "Ann")] [("name", VStr "Ann")]
                "_id_0") as H.
  destruct H as (H1 & H2 & _); [reflexivity | reflexivity | reflexivity |].
  split; [exact H1 | exact H2].
Defined.

(** X24. A condition named [self], [graph_object] or [node_class] makes
    the call of [_create_node] raise [TypeError] before anything is done:
    no identifier is drawn and the world is as before. A condition named
    [n] passes that call and makes [add_node] raise [TypeError]: the graph
    is as before, but one identifier has been drawn. *)
Theorem create_node_rejects_parameter_names (w : world) (c : option string)
    (conds : dict) :
  (Create.collides_with_create_node conds = true ->
   Create._create_node w c conds = (w, conds, Raise TypeError))
  /\ (Create.collides_with_create_node conds = false ->
      has_key conds "n" = true ->
      exists w',
        Create._create_node w c conds = (w', conds, Raise TypeError)
        /\ graph w' = graph w /\ drawn w' = S (drawn w)).
Proof.
  split.
  - intros H. unfold Create._create_node. rewrite H. reflexivity.
  - intros H Hn. unfold Create._create_node. rewrite H. cbn [unique_id].
    assert (Hk : has_key (dict_set conds "class" (label_val c)) "n" = true).
    { unfold has_key in *. rewrite dict_lookup_dict_set_ne by discriminate.
      exact Hn. }
    assert (Hs : add_node_attr_dict (dict_set conds "class" (label_val c))
                 = Raise TypeError).
    { unfold add_node_attr_dict. rewrite Hk, orb_true_r. reflexivity. }
    assert (Hc : Create.conditions_after conds (Raise TypeError) = conds).
    { unfold Create.conditions_after.
      destruct (dict_lookup conds "attr_dict") as [[| | |]|]; reflexivity. }
    rewrite Hs, Hc. eexists. split; [reflexivity | split; reflexivity].
Qed.

Lemma create_node_rejects_parameter_names_witness :
  Create._create_node sample_world (Some "Person") [("node_class", VStr "x")]
  = (sample_world, [("node_class", VStr "x")], Raise TypeError)
  /\ exists w',
       Create._create_node sample_world (Some "Person") [("n", VInt 3)]
       = (w', [("n", VInt 3)], Raise TypeError)
       /\ graph w' = graph sample_world /\ drawn w' = S (drawn sample_world).
Proof.
  split.
  - apply (create_node_rejects_parameter_names sample_world (Some "Person")
             [("node_class", VStr "x")]). reflexivity.
  - apply (create_node_rejects_parameter_names sample_world (Some "Person")
             [("n", VInt 3)]); reflexivity.
Defined.

(** ** What the CREATE path leaves in the graph *)

Lemma keeps_refl w : keeps w w.
Proof. unfold keeps. repeat split; auto. Qed.

Lemma keeps_trans w1 w2 w3 : keeps w1 w2 -> keeps w2 w3 -> keeps w1 w3.
Proof.
  intros (Hh1 & Hk1 & Hd1 & Hn1 & He1 & Ha1) (Hh2 & Hk2 & Hd2 & Hn2 & He2 & Ha2).
  unfold keeps. split; [congruence |]. split; [congruence |].
  split; [lia |]. split; [auto |]. split; [auto |].
  intros e He. rewrite Ha2, Ha1; [reflexivity | |].
  - intros i Hi. apply He. lia.
  - intros i Hi. rewrite Hh1. apply He. lia.
Qed.

Lemma keeps_create_node w c conds w' conds' r :
  Create._create_node w c conds = (w', conds', r) ->
  keeps w w' /\ forall id, r = Ok id -> id ∈ _get_domain (graph w').
Proof.
  intros H. destruct r as [id|e].
  - apply _create_node_success in H.
    destruct H as (attrs & _ & _ & -> & ->). cbn [graph].
    destruct (add_node_keeps (key_rank w) (graph w)
                ("_id_" +:+ random_hash w (drawn w)) attrs)
      as (Hn & Hin & Ha & He).
    split; [|intros id' [= <-]; exact Hin].
    unfold keeps. cbn [graph random_hash key_rank drawn].
    split; [reflexivity |]. split; [reflexivity |]. split; [lia |].
    split; [exact Hn |]. split.
    + intros s t x. unfold _edges_connecting_nodes. rewrite He. auto.
    + intros e Hne. apply Ha. apply Hne. lia.
  - apply _create_node_failure in H. destruct H as (Hg & Hh & Hk & Hd).
    split; [|discriminate].
    unfold keeps. rewrite Hg, Hh, Hk.
    repeat split; auto. destruct Hd; lia.
Qed.

Lemma keeps_create_edge w source target lbl :
  source ∈ _get_domain (graph w) -> target ∈ _get_domain (graph w) ->
  keeps w (snd (Create._create_edge w source target lbl))
  /\ node (graph (snd (Create._create_edge w source target lbl)))
     = node (graph w).
Proof.
  intros Hs Ht. rewrite _create_edge_eq. cbn [snd graph].
  set (attr := Create.created_edge_data lbl _).
  pose proof (add_edge_between_nodes (key_rank w) (graph w) source target attr
                Hs Ht) as Hnode.
  split; [|exact Hnode].
  unfold keeps. cbn [graph random_hash key_rank drawn].
  split; [reflexivity |]. split; [reflexivity |]. split; [lia |].
  split; [|split].
  - unfold _get_domain. rewrite Hnode. auto.
  - intros s t x Hx.
    destruct (decide ((source, target) = (s, t))) as [[= <- <-] | Hne].
    + destruct (edges_after_add_edge_same (key_rank w) (graph w) source target
                  attr) as [key ->].
      apply elem_of_app. left. exact Hx.
    + rewrite (edges_after_add_edge_other _ _ _ _ _ _ _ Hne). exact Hx.
  - intros e _. rewrite Hnode. reflexivity.
Qed.

Lemma nodes_exist_keeps w w' l :
  nodes_exist w l -> keeps w w' -> nodes_exist w' l.
Proof.
  intros Hl (_ & _ & _ & Hn & _) d id Hd. apply Hn. eapply Hl, Hd.
Qed.

Lemma create_nodes_keeps lits :
  forall w l w' l' lits' r,
    nodes_exist w l ->
    Create.create_nodes w l lits = (w', l', lits', r) ->
    keeps w w' /\ nodes_exist w' l'.
Proof.
  induction lits as [|lit rest IH]; intros w l w' l' lits' r Hl;
    cbn [Create.create_nodes].
  - intros [= <- <- _ _]. split; [apply keeps_refl | exact Hl].
  - destruct (attribute_conditions lit) as [conds|].
    2: { intros [= <- <- _ _]. split; [apply keeps_refl | exact Hl]. }
    destruct (Create._create_node w (node_class lit) conds)
      as [[w1 conds1] [id|e]] eqn:Ec;
      apply keeps_create_node in Ec; destruct Ec as [Hk Hid].
    + destruct (Create.create_nodes w1 _ rest) as [[[w2 l2] rest2] r2] eqn:En.
      intros [= <- <- _ _].
      apply IH in En.
      * destruct En as [Hk2 Hl2]. split; [eapply keeps_trans; eassumption |].
        exact Hl2.
      * intros d id' Hd. unfold Create.set_node in Hd. cbn in Hd.
        destruct (decide (designation lit = d)) as [<- | Hne].
        -- rewrite lookup_insert_eq in Hd. injection Hd as <-.
           apply Hid. reflexivity.
        -- rewrite lookup_insert_ne in Hd by exact Hne.
           eapply nodes_exist_keeps; eassumption.
    + intros [= <- <- _ _]. split; [exact Hk |].
      eapply nodes_exist_keeps; eassumption.
Qed.

Lemma create_edges_keeps facts :
  forall w l,
    nodes_exist w l ->
    keeps w (fst (fst (Create.create_edges w l facts))).
Proof.
  induction facts as [|fact rest IH]; intros w l Hl; cbn [Create.create_edges].
  - apply keeps_refl.
  - destruct fact as [d c | n1 n2 lbl | d doc | c]; try (apply IH, Hl).
    destruct (Create.designation_to_node l !! Some n1) as [s|] eqn:E1;
      [|apply keeps_refl].
    destruct (Create.designation_to_node l !! Some n2) as [t|] eqn:E2;
      [|apply keeps_refl].
    destruct (keeps_create_edge w s t lbl (Hl _ _ E1) (Hl _ _ E2)) as [Hk Hn].
    destruct (Create._create_edge w s t lbl) as [new_edge_id w1].
    cbn [snd] in Hk, Hn.
    eapply keeps_trans; [exact Hk |]. apply IH.
    intros d id Hd. cbn in Hd. unfold _get_domain. rewrite Hn.
    eapply Hl, Hd.
Qed.

Lemma create_query_keeps w q :
  keeps w (fst (fst (Create.create_query w q))).
Proof.
  unfold Create.create_query, Create.create_query_body.
  destruct (extract_atomic_facts_create q) as [q1 [facts|e]];
    [|apply keeps_refl].
  destruct (Create.create_literal_list q1) as [lits|e]; [|apply keeps_refl].
  destruct (Create.create_nodes w _ lits) as [[[w1 l1] lits1] r] eqn:En.
  apply create_nodes_keeps in En.
  2: { intros d id Hd. cbn in Hd. rewrite lookup_empty in Hd. discriminate. }
  destruct En as [Hk Hl]. destruct r as [u|e]; [|exact Hk].
  pose proof (create_edges_keeps (filter Create.is_EdgeExists facts) w1 l1 Hl)
    as He.
  destruct (Create.create_edges w1 l1 _) as [[w2 l2] r2]. cbn [fst] in *.
  eapply keeps_trans; eassumption.
Qed.

(** X16. However the call of [query] ends, with rows, without, or with
    an exception half-way through a CREATE, the graph afterwards holds
    every node name and every edge it held before, and every node whose
    name is not one of the identifiers drawn during the call has the
    attributes it had: nothing is removed and nothing is rolled back. A
    MATCH query leaves the world exactly as it was. *)
Theorem query_never_removes (w : world) (pq : parsed_query) :
  let w' := fst (fst (query w pq)) in
  (forall e, e ∈ _get_domain (graph w) -> e ∈ _get_domain (graph w'))
  /\ (forall source target x,
        x ∈ _edges_connecting_nodes (graph w) source target ->
        x ∈ _edges_connecting_nodes (graph w') source target)
  /\ (forall e,
        (forall i, (drawn w <= i < drawn w')%nat ->
                   e <> "_id_" +:+ random_hash w i) ->
        assoc (node (graph w')) e = assoc (node (graph w)) e)
  /\ (forall q, pq = PMatch q -> w' = w).
Proof.
  intros w'. subst w'.
  assert (Hk : keeps w (fst (fst (query w pq)))).
  { destruct pq as [q | q | name]; unfold query.
    - destruct (matching_nodes (graph w) q). apply keeps_refl.
    - pose proof (create_query_keeps w q) as H.
      destruct (Create.create_query w q) as [[w1 q1] [u|e]]; exact H.
    - apply keeps_refl. }
  destruct Hk as (_ & _ & _ & Hn & He & Ha).
  split; [exact Hn |]. split; [exact He |]. split; [exact Ha |].
  intros q ->. unfold query. destruct (matching_nodes (graph w) q). reflexivity.
Qed.

Lemma query_never_removes_witness :
  let out := query one_node_world (PCreate dangling_edge_create_query) in
  error (snd out) = Some (KeyError (Some "z"))
  /\ "a" ∈ _get_domain (graph (fst (fst out)))
  /\ "_id_0" ∈ _get_domain (graph (fst (fst out)))
  /\ assoc (node (graph (fst (fst out)))) "a"
     = assoc (node (graph one_node_world)) "a".
Proof.
  pose proof (query_never_removes one_node_world
                (PCreate dangling_edge_create_query)) as H.
  cbv zeta in H. destruct H as (Hn & _ & Ha & _).
  split; [vm_compute; reflexivity |].
  split; [apply Hn; vm_compute; left |].
  split; [vm_compute; apply list_elem_of_In; vm_compute; tauto |].
  apply Ha. intros i _ Hi. discriminate Hi.
Defined.

(** ** Draws and edges of a CREATE that succeeds *)

Lemma edge_count_put_edge edges uv attr :
  list_sum (map (fun p : string * string * list (Z * dict) => length (snd p))
              (put_edge edges uv attr))
  = S (list_sum (map (fun p : string * string * list (Z * dict) =>
                        length (snd p)) edges)).
Proof.
  induction edges as [|[uv' keydict] rest IH]; simpl; [reflexivity |].
  destruct (pair_eqb uv' uv); simpl.
  - rewrite length_app. simpl. lia.
  - rewrite IH. lia.
Qed.

Lemma edge_count_add_edge rank g u v attr :
  edge_count (add_edge rank g u v attr) = S (edge_count g).
Proof.
  unfold edge_count. rewrite edge_add_edge. apply edge_count_put_edge.
Qed.

Lemma edge_count_add_node rank g n attr :
  edge_count (add_node rank g n attr) = edge_count g.
Proof. unfold edge_count, add_node. destruct (assoc (node g) n); reflexivity. Qed.

Lemma create_nodes_draws lits :
  forall w l w' l' lits',
    Create.create_nodes w l lits = (w', l', lits', Ok tt) ->
    drawn w' = drawn w + length lits
    /\ edge_count (graph w') = edge_count (graph w).
Proof.
  induction lits as [|lit rest IH]; intros w l w' l' lits';
    cbn [Create.create_nodes].
  - intros [= <- _ _]. simpl. split; [lia | reflexivity].
  - destruct (attribute_conditions lit) as [conds|]; [|discriminate].
    destruct (Create._create_node w (node_class lit) conds)
      as [[w1 conds1] [id|e]] eqn:Ec; [|discriminate].
    apply _create_node_success in Ec.
    destruct Ec as (attrs & _ & _ & _ & ->).
    destruct (Create.create_nodes _ _ rest) as [[[w2 l2] rest2] r2] eqn:En.
    intros [= <- _ _ ->]. apply IH in En. cbn [graph drawn] in En.
    rewrite edge_count_add_node in En. destruct En as [H1 H2].
    split; [simpl; lia | exact H2].
Qed.

Lemma create_edges_draws facts :
  Forall (fun f => Create.is_EdgeExists f = true) facts ->
  forall w l w' l',
    Create.create_edges w l facts = (w', l', Ok tt) ->
    drawn w' = drawn w + length facts
    /\ edge_count (graph w') = edge_count (graph w) + length facts.
Proof.
  induction 1 as [|fact rest Hf _ IH]; intros w l w' l';
    cbn [Create.create_edges].
  - intros [= <- <-]. simpl. split; lia.
  - destruct fact as [d c | n1 n2 lbl | d doc | c]; try discriminate Hf.
    destruct (Create.designation_to_node l !! Some n1) as [s|]; [|discriminate].
    destruct (Create.designation_to_node l !! Some n2) as [t|]; [|discriminate].
    rewrite _create_edge_eq. intros H. apply IH in H. simpl in H.
    rewrite edge_count_add_edge in H. destruct H as [H1 H2].
    split; simpl; lia.
Qed.

(** X17. A CREATE that succeeds draws one identifier for each pattern-node
    literal and one for each edge fact, and adds one edge for each edge
    fact. *)
Theorem create_draws_one_id_each (w w' : world) (q q1 q' : CreateReturnQuery)
    (facts : list atomic_fact) (lits : list Node) (l : Create.locals) :
  extract_atomic_facts_create q = (q1, Ok facts) ->
  Create.create_literal_list q1 = Ok lits ->
  Create.create_query_body w q = (w', q', l, Ok tt) ->
  drawn w' = drawn w + length lits
             + length (filter Create.is_EdgeExists facts)
  /\ edge_count (graph w')
     = edge_count (graph w) + length (filter Create.is_EdgeExists facts).
Proof.
  intros He Hl Hb. unfold Create.create_query_body in Hb.
  rewrite He, Hl in Hb.
  destruct (Create.create_nodes w _ lits) as [[[w1 l1] lits1] [u|e]] eqn:En;
    [|discriminate].
  destruct u. apply create_nodes_draws in En. destruct En as [Hd1 He1].
  destruct (Create.create_edges w1 l1 _) as [[w2 l2] r] eqn:Ee.
  injection Hb as <- _ _ ->.
  apply create_edges_draws in Ee.
  - destruct Ee as [Hd2 He2]. split; lia.
  - apply Forall_forall. intros f Hf.
    apply list_elem_of_filter in Hf. destruct Hf as [Hf _].
    destruct (Create.is_EdgeExists f); [reflexivity | contradiction].
Qed.

Lemma create_draws_one_id_each_witness :
  let out := Create.create_query_body sample_world create_sample_query in
  drawn (fst (fst (fst out))) = drawn sample_world + 2 + 1
  /\ edge_count (graph (fst (fst (fst out))))
     = edge_count (graph sample_world) + 1.
Proof.
  pose proof (create_draws_one_id_each sample_world
                (fst (fst (fst (Create.create_query_body sample_world
                                  create_sample_query))))
                create_sample_query create_sample_query
                (snd (fst (fst (Create.create_query_body sample_world
                                  create_sample_query))))
                [ClassIs (Some "n") (Some "Person");
                 EdgeExists "n" "m" (Some "KNOWS");
                 NodeHasDocument (Some "n") (Some [("name", VStr "Ann")]);
                 ClassIs (Some "m") (Some "Person");
                 NodeHasDocument (Some "m") (Some [("name", VStr "Bo")])]
                (pattern_nodes_of_create create_sample_query)
                (snd (fst (Create.create_query_body sample_world
                             create_sample_query)))) as H.
  apply H; reflexivity.
Defined.

(** ** Queries that mention declared designations only *)

Lemma clause_scoped_bound g ds (v2e : gmap string string) c :
  well_bound g ds v2e -> clause_scoped ds c = true ->
  clause_bound g v2e c = true.
Proof.
  intros Hw. induction c as [l IHl r IHr | a IHa | keypath lit];
    cbn [clause_scoped clause_bound]; intros Hs.
  - apply andb_true_iff in Hs. destruct Hs as [Hl Hr].
    rewrite (IHl Hl), (IHr Hr). reflexivity.
  - apply IHa, Hs.
  - destruct keypath as [|x ks]; [discriminate |].
    apply bool_decide_eq_true in Hs.
    destruct (Hw x Hs) as (e & attrs & -> & ->). reflexivity.
Qed.

Lemma check_fact_scoped g ds (v2e : gmap string string) f s :
  well_bound g ds v2e -> fact_scoped ds f = true ->
  exists b, check_fact g v2e s f = Ok b.
Proof.
  intros Hw Hf. destruct f as [[d|] c | n1 n2 lbl | d doc | c];
    cbn [fact_scoped] in Hf; try discriminate.
  - apply bool_decide_eq_true in Hf.
    destruct (Hw d Hf) as (e & attrs & Hv & Hn).
    rewrite (check_fact_ClassIs_any g v2e d c e attrs s Hv Hn). eauto.
  - apply andb_true_iff in Hf. destruct Hf as [H1 H2].
    apply bool_decide_eq_true in H1. apply bool_decide_eq_true in H2.
    destruct (Hw n1 H1) as (e1 & a1 & Hv1 & _).
    destruct (Hw n2 H2) as (e2 & a2 & Hv2 & _).
    rewrite (check_fact_EdgeExists g v2e n1 n2 e1 e2 lbl s Hv1 Hv2). eauto.
  - cbn [check_fact]. eauto.
  - cbn [check_fact].
    destruct (eval_boolean_of_bound_clause g v2e c
                (clause_scoped_bound g ds v2e c Hw Hf)) as [b ->].
    cbn [rbind]. eauto.
Qed.

Lemma check_facts_scoped g ds (v2e : gmap string string) facts :
  well_bound g ds v2e -> forallb (fact_scoped ds) facts = true ->
  forall s, exists b, check_facts g v2e s facts = Ok b.
Proof.
  intros Hw. induction facts as [|f rest IH]; cbn [forallb check_facts];
    intros Hall s.
  - eauto.
  - apply andb_true_iff in Hall. destruct Hall as [Hf Hrest].
    destruct (check_fact_scoped g ds v2e f s Hw Hf) as [b ->]. cbn [rbind].
    apply IH, Hrest.
Qed.

Lemma enumerate_scoped g ds facts x rest assignments :
  forallb (fact_scoped ds) facts = true ->
  x ∈ ds ->
  (forall a, a ∈ assignments -> well_bound g ds (make_var_to_element ds a)) ->
  enumerate g ds facts (ReturnName x :: rest) assignments
  = (ReturnName x :: rest,
     {| rows := map (bound_row ds x)
                  (List.filter (satisfies g ds facts) assignments);
        error := None |}).
Proof.
  intros Hall Hx. induction assignments as [|a others IH]; intros Hb;
    [reflexivity |].
  cbn [enumerate List.filter]. unfold try_assignment.
  assert (IH' := IH (fun a' Ha' => Hb a' (list_elem_of_further _ _ _ Ha'))).
  assert (Hwa : well_bound g ds (make_var_to_element ds a)) by (apply Hb; left).
  assert (Hs : satisfies g ds facts a
               = match check_facts g (make_var_to_element ds a) true facts
                 with Ok true => true | _ => false end) by reflexivity.
  destruct (check_facts_scoped g ds _ facts Hwa Hall true) as [b Eb].
  rewrite Eb in *. destruct b; cbn iota in Hs; rewrite Hs.
  - destruct (Hwa x Hx) as (e & attrs & Hv & _).
    rewrite (project_stops_at_name g _ x e rest [] Hv). rewrite IH'.
    cbn [map rows error app]. unfold bound_row. rewrite Hv. reflexivity.
  - exact IH'.
Qed.

(** X18. A match query whose facts mention declared designations only (class
    facts with a designation, edge facts between declared designations,
    filters whose constraints start with a declared designation) and whose
    return list starts with a declared bare designation never raises: it
    yields, in the order of the enumeration, one row for each candidate
    that satisfies the facts, holding the node bound to that
    designation. *)
Theorem well_scoped_query_yields_every_match g q q' facts x rest :
  extract_atomic_facts_match q = (q', Ok facts) ->
  forallb (fact_scoped (all_designations_of facts)) facts = true ->
  variable_list (return_variables q) = ReturnName x :: rest ->
  x ∈ all_designations_of facts ->
  let ds := all_designations_of facts in
  snd (matching_nodes g q)
  = {| rows := map (bound_row ds x)
                 (List.filter (satisfies g ds facts)
                    (product (_get_domain g) (length ds)));
       error := None |}.
Proof.
  intros He Hall Hv Hx ds. unfold matching_nodes.
  pose proof (extract_keeps_return_variables q) as Hr.
  rewrite He in *. simpl in Hr. rewrite Hr, Hv. fold ds.
  rewrite (enumerate_scoped g ds facts x rest _ Hall Hx).
  - reflexivity.
  - intros a Ha d Hd.
    destruct (candidate_binding g ds a d (all_designations_NoDup facts) Ha Hd)
      as (e & attrs & H1 & _ & H2).
    eauto.
Qed.

Lemma well_scoped_query_yields_every_match_witness :
  let facts := [ClassIs (Some "n") None; EdgeExists "n" "m" (Some "KNOWS");
                NodeHasDocument (Some "n") None;
                ClassIs (Some "m") None; NodeHasDocument (Some "m") None] in
  let ds := all_designations_of facts in
  snd (matching_nodes sample_graph labeled_edge_query)
  = {| rows := map (bound_row ds "n")
                 (List.filter (satisfies sample_graph ds facts)
                    (product (_get_domain sample_graph) (length ds)));
       error := None |}.
Proof.
  apply (well_scoped_query_yields_every_match sample_graph labeled_edge_query
           labeled_edge_query
           [ClassIs (Some "n") None; EdgeExists "n" "m" (Some "KNOWS");
            NodeHasDocument (Some "n") None;
            ClassIs (Some "m") None; NodeHasDocument (Some "m") None]
           "n" []).
  - vm_compute. reflexivity.
  - vm_compute. reflexivity.
  - reflexivity.
  - rewrite list_elem_of_In. vm_compute. tauto.
Defined.

(** ** Edge facts under a binding *)

Lemma label_eqb_label_val (v : pyval) (lbl : option string) :
  label_eqb v lbl = true <-> v = label_val lbl.
Proof.
  destruct lbl as [name|]; [apply label_eqb_Some |].
  destruct v; simpl; split; congruence.
Qed.

(** X19. When its two designations are bound, an edge fact never raises. It
    holds exactly when some edge from the first bound node to the second
    has a class equal to the label of the fact, where a fact without a
    label asks for an edge without a class; between two nodes that no edge
    connects it fails. *)
Theorem edge_fact_holds_iff g (v2e : gmap string string) node_1 node_2
    source target (lbl : option string) :
  v2e !! node_1 = Some source ->
  v2e !! node_2 = Some target ->
  (check_fact g v2e true (EdgeExists node_1 node_2 lbl) = Ok true
   <-> exists e, In e (_edges_connecting_nodes g source target)
                 /\ _edge_class (snd e) = label_val lbl)
  /\ (check_fact g v2e true (EdgeExists node_1 node_2 lbl) = Ok true
      \/ check_fact g v2e true (EdgeExists node_1 node_2 lbl) = Ok false)
  /\ (_edges_connecting_nodes g source target = [] ->
      check_fact g v2e true (EdgeExists node_1 node_2 lbl) = Ok false).
Proof.
  intros H1 H2.
  rewrite (check_fact_EdgeExists g v2e node_1 node_2 source target lbl true
             H1 H2).
  unfold some_edge_has_class. split; [|split].
  - destruct (existsb _ _) eqn:E.
    + split; [intros _ | reflexivity].
      apply existsb_exists in E. destruct E as (e & Hin & He).
      exists e. split; [exact Hin | apply label_eqb_label_val, He].
    + split; [discriminate |]. intros (e & Hin & He). exfalso.
      assert (Ht : existsb (fun e => label_eqb (_edge_class (snd e)) lbl)
                     (_edges_connecting_nodes g source target) = true).
      { apply existsb_exists. exists e. split; [exact Hin |].
        apply label_eqb_label_val, He. }
      congruence.
  - destruct (existsb _ _); [left | right]; reflexivity.
  - intros ->. reflexivity.
Qed.

Lemma edge_fact_holds_iff_witness :
  (check_fact sample_graph {[ "n" := "a"; "m" := "b" ]} true
     (EdgeExists "m" "n" (Some "KNOWS")) = Ok true
   <-> exists e, In e (_edges_connecting_nodes sample_graph "b" "a")
                 /\ _edge_class (snd e) = label_val (Some "KNOWS"))
  /\ (check_fact sample_graph {[ "n" := "a"; "m" := "b" ]} true
        (EdgeExists "m" "n" (Some "KNOWS")) = Ok true
      \/ check_fact sample_graph {[ "n" := "a"; "m" := "b" ]} true
           (EdgeExists "m" "n" (Some "KNOWS")) = Ok false)
  /\ (_edges_connecting_nodes sample_graph "b" "a" = [] ->
      check_fact sample_graph {[ "n" := "a"; "m" := "b" ]} true
        (EdgeExists "m" "n" (Some "KNOWS")) = Ok false).
Proof.
  apply (edge_fact_holds_iff sample_graph {[ "n" := "a"; "m" := "b" ]}
           "m" "n" "b" "a" (Some "KNOWS")).
  - vm_compute. reflexivity.
  - vm_compute. reflexivity.
Defined.

(** ** Document facts, all at once *)

(** X20. The verdict on a candidate, and the exception if there is one, are
    those of the facts with every [NodeHasDocument] fact taken out. *)
Theorem document_facts_are_inert g (v2e : gmap string string) facts s :
  check_facts g v2e s facts
  = check_facts g v2e s
      (List.filter (fun f => negb (is_NodeHasDocument f)) facts).
Proof.
  revert s. induction facts as [|f rest IH]; intros s; [reflexivity |].
  destruct f as [d c | n1 n2 lbl | d doc | c]; cbn [List.filter is_NodeHasDocument negb];
    try (cbn [check_facts];
         match goal with
         | |- rbind ?r _ = rbind ?r _ => destruct r as [s'|e]; cbn [rbind];
                                         [apply IH | reflexivity]
         end).
  cbn [check_facts check_fact rbind]. apply IH.
Qed.

(** ** A second run on the same AST *)

(** X21. When every pattern node has a designation and the return list is
    empty or starts with a bare designation, a run leaves the AST as it
    found it, and a second run on that AST gives the rows and the outcome
    of the first. *)
Theorem second_run_repeats_first g q :
  all_designated q ->
  starts_with_name (variable_list (return_variables q)) = true ->
  fst (matching_nodes g q) = q
  /\ snd (matching_nodes g (fst (matching_nodes g q))) = snd (matching_nodes g q).
Proof. apply two_runs_agree. Qed.

Lemma second_run_repeats_first_witness :
  fst (matching_nodes sample_graph labeled_edge_query) = labeled_edge_query
  /\ snd (matching_nodes sample_graph
            (fst (matching_nodes sample_graph labeled_edge_query)))
     = snd (matching_nodes sample_graph labeled_edge_query).
Proof.
  apply (second_run_repeats_first sample_graph labeled_edge_query).
  - unfold all_designated. simpl. repeat constructor; discriminate.
  - reflexivity.
Defined.

(** ** Generated names *)

Lemma _recurse_literal_list_success_names l :
  forall st l' st',
    _recurse_literal_list st l = (l', st', Ok tt) ->
    Forall2
      (fun n n' =>
         designation n'
         = Some (default ("_v" +:+ pretty (_recurse_next_anonymous_variable st))
                   (designation n)))
      l l'.
Proof.
  induction l as [|n rest IH]; intros st l' st'; cbn [_recurse_literal_list].
  - intros [= <- _]. constructor.
  - pose proof (_recurse_Node_name st n) as Hname.
    pose proof (_recurse_Node_counter st n) as Hcount.
    destruct (_recurse_Node st n) as [[n1 st1] [u|e]]; [|discriminate].
    simpl in Hname, Hcount.
    destruct (_recurse_literal_list st1 rest) as [[rest1 st2] r] eqn:El.
    intros [= <- _ ->]. apply IH in El. rewrite Hcount in El.
    constructor; assumption.
Qed.

(** X22. In one extraction call that succeeds every pattern node keeps the
    designation it has, and every node that has none is named [_v0],
    however many such nodes there are. *)
Theorem generated_names_are_all_v0 q q' facts :
  extract_atomic_facts_match q = (q', Ok facts) ->
  Forall2 (fun n n' => designation n' = Some (default "_v0" (designation n)))
    (pattern_nodes q) (pattern_nodes q').
Proof.
  unfold extract_atomic_facts_match, _recurse_MatchWhereReturnQuery,
    _recurse_MatchQuery, _recurse_Literals, finish_extract, pattern_nodes.
  destruct q as [[[ls mw]|] wc rv]; simpl.
  - destruct ls as [[l]|]; simpl.
    + destruct (_recurse_literal_list _recurse_init l) as [[l1 st1] [u|e]] eqn:El;
        simpl; [|discriminate].
      intros [= <- _]. simpl. destruct u.
      exact (_recurse_literal_list_success_names l _ _ _ El).
    + intros [= <- _]. simpl. constructor.
  - intros [= <- _]. simpl. constructor.
Qed.

Lemma generated_names_are_all_v0_witness :
  let q := match_query [anonymous_node "A" (Some 0%Z);
                        pattern_node (Some "n") None [];
                        anonymous_node "B" (Some 5%Z)] None [] in
  Forall2 (fun n n' => designation n' = Some (default "_v0" (designation n)))
    (pattern_nodes q) (pattern_nodes (fst (extract_atomic_facts_match q))).
Proof.
  apply (generated_names_are_all_v0
           (match_query [anonymous_node "A" (Some 0%Z);
                         pattern_node (Some "n") None [];
                         anonymous_node "B" (Some 5%Z)] None [])
           (fst (extract_atomic_facts_match
                   (match_query [anonymous_node "A" (Some 0%Z);
                                 pattern_node (Some "n") None [];
                                 anonymous_node "B" (Some 5%Z)] None [])))
           (flat_map node_facts
              (pattern_nodes
                 (fst (extract_atomic_facts_match
                         (match_query [anonymous_node "A" (Some 0%Z);
                                       pattern_node (Some "n") None [];
                                       anonymous_node "B" (Some 5%Z)]
                            None [])))))).
  vm_compute. reflexivity.
Defined.

(** ** The connectives of a filter *)

(** X23. For two clauses that evaluate without an exception, [Or] is the
    disjunction of their values in either order, [Not] the negation, and
    the clause built from them as Not (Or (Not l) (Not r)) is their
    conjunction. A left operand that is true hides the right one, which
    is then not evaluated and cannot raise. *)
Theorem filter_connectives g (v2e : gmap string string) l r bl br :
  _eval_boolean g v2e l = Ok bl ->
  _eval_boolean g v2e r = Ok br ->
  _eval_boolean g v2e (Or l r) = Ok (bl || br)
  /\ _eval_boolean g v2e (Or r l) = Ok (bl || br)
  /\ _eval_boolean g v2e (Not l) = Ok (negb bl)
  /\ _eval_boolean g v2e (Not (Or (Not l) (Not r))) = Ok (bl && br)
  /\ (bl = true -> forall r', _eval_boolean g v2e (Or l r') = Ok true).
Proof.
  intros Hl Hr. cbn [_eval_boolean]. rewrite Hl, Hr. cbn [rbind].
  repeat split.
  - destruct bl; reflexivity.
  - destruct br, bl; reflexivity.
  - destruct bl, br; reflexivity.
  - intros -> r'. reflexivity.
Qed.

Lemma filter_connectives_witness :
  let l := Constraint ["n"; "name"] (LitStr "Bo") in
  let r := Constraint ["n"; "age"] (LitInt 3) in
  _eval_boolean sample_graph {[ "n" := "b" ]} (Or l r) = Ok (true || false)
  /\ _eval_boolean sample_graph {[ "n" := "b" ]} (Or r l) = Ok (true || false)
  /\ _eval_boolean sample_graph {[ "n" := "b" ]} (Not l) = Ok (negb true)
  /\ _eval_boolean sample_graph {[ "n" := "b" ]} (Not (Or (Not l) (Not r)))
     = Ok (true && false)
  /\ (true = true ->
      forall r', _eval_boolean sample_graph {[ "n" := "b" ]} (Or l r') = Ok true).
Proof.
  apply (filter_connectives sample_graph {[ "n" := "b" ]}
           (Constraint ["n"; "name"] (LitStr "Bo"))
           (Constraint ["n"; "age"] (LitInt 3)) true false).
  - vm_compute. reflexivity.
  - vm_compute. reflexivity.
Defined.
